(** * zipline.modelling.pipeline: the Pipeline container

    A shallow embedding of [src/zipline/modelling/pipeline.py].

    Python objects live in a store: a [dict] is a heap cell holding a finite
    map and is passed around by reference, so that the aliasing between the
    container's [_columns] and the caller's mapping, and the copy made by
    [to_graph], are visible.  The instance has the three data slots of
    [__slots__]; a slot is unset until [__init__] assigns it.  Methods are
    computations in a state-and-exception monad in which a raised exception
    keeps the state reached so far, as in Python. *)

From stdpp Require Import gmap strings list fin_maps.

Open Scope string_scope.

(** ** Python values *)

(** The classes of terms the container can be handed.  [Filter], [Factor]
    and [Classifier] all derive from [Term]. *)
Inductive term_kind := KFactor | KFilter | KClassifier.

(** A term is opaque to the container: a class and an object identity. *)
Record term := MkTerm { term_kind_of : term_kind; term_id : nat }.

Definition loc := positive.

Inductive pyval :=
| PNone
| PInt (z : Z)
| PStr (s : string)
| PDict (l : loc)
| PTerm (t : term).

#[global] Instance term_kind_eq_dec : EqDecision term_kind.
Proof. solve_decision. Defined.
#[global] Instance term_eq_dec : EqDecision term.
Proof. solve_decision. Defined.
#[global] Instance pyval_eq_dec : EqDecision pyval.
Proof. solve_decision. Defined.

(** The contents of a [dict]: column names are strings, the values are
    whatever was stored.  Two dicts are equal when they bind the same keys to
    the same values, whatever the order of insertion. *)
Abbreviation dict_contents := (gmap string pyval).

(** ** Exceptions *)

Inductive exn :=
| TypeError (funcname argname : string)
| KeyError (args : list pyval)
| ValueError (args : list pyval)
| AttributeError (attr : string)
| SystemError.

(** ** The store *)

(** The slots of a [Pipeline] instance ([__slots__ = ('_name', '_columns',
    '_screen', ...)]); [None] is a slot that was never assigned.  An assigned
    [_screen] holds Python's [None] or a filter. *)
Record instance := Instance {
  _name : option string;
  _columns : option loc;
  _screen : option (option term);
}.

Record state := State {
  heap : gmap loc dict_contents;
  self : instance;
}.

(** The instance [object.__new__] hands to [__init__]. *)
Definition blank : instance :=
  {| _name := None; _columns := None; _screen := None |}.

(** ** The monad *)

Inductive outcome (A : Type) :=
| Return (a : A)
| Raise (e : exn).
Arguments Return {A} a.
Arguments Raise {A} e.

Definition M (A : Type) : Type := state → outcome A * state.

Definition ret {A} (a : A) : M A := λ σ, (Return a, σ).

Definition bind {A B} (m : M A) (k : A → M B) : M B :=
  λ σ, match m σ with
       | (Return a, σ') => k a σ'
       | (Raise e, σ') => (Raise e, σ')
       end.

Definition raise {A} (e : exn) : M A := λ σ, (Raise e, σ).

#[global] Instance M_ret : MRet M := @ret.
#[global] Instance M_bind : MBind M := λ A B k m, bind m k.

(** ** Store primitives *)

(** Reading the dict behind a reference.  A Python reference always refers to
    a live object; [SystemError] marks the case the store has no cell at [l],
    which no initialised container reaches ([exec_raises_documented]). *)
Definition deref (l : loc) : M dict_contents :=
  λ σ, match heap σ !! l with
       | Some d => (Return d, σ)
       | None => (Raise SystemError, σ)
       end.

Definition store (l : loc) (d : dict_contents) : M unit :=
  λ σ, (Return (), {| heap := <[l := d]> (heap σ); self := self σ |}).

Definition alloc (d : dict_contents) : M loc :=
  λ σ, let l := fresh (dom (heap σ)) in
       (Return l, {| heap := <[l := d]> (heap σ); self := self σ |}).

(** [self.<slot>]: reading a slot that was never assigned raises
    [AttributeError]. *)
Definition getattr {A} (attr : string) (slot : instance → option A) : M A :=
  λ σ, match slot (self σ) with
       | Some a => (Return a, σ)
       | None => (Raise (AttributeError attr), σ)
       end.

Definition setattr (f : instance → instance) : M unit :=
  λ σ, (Return (), {| heap := heap σ; self := f (self σ) |}).

Definition set_name (v : string) (o : instance) : instance :=
  {| _name := Some v; _columns := _columns o; _screen := _screen o |}.
Definition set_columns (v : loc) (o : instance) : instance :=
  {| _name := _name o; _columns := Some v; _screen := _screen o |}.
Definition set_screen_slot (v : option term) (o : instance) : instance :=
  {| _name := _name o; _columns := _columns o; _screen := Some v |}.

(** ** The operations of [dict] the container uses *)

(** [{}] *)
Definition dict_new : M loc := alloc ∅.

(** [d.copy()]: a new dict with the same entries (a shallow copy). *)
Definition dict_copy (l : loc) : M loc :=
  d ← deref l; alloc d.

(** [k in d] *)
Definition dict_contains (l : loc) (k : string) : M bool :=
  d ← deref l; mret (bool_decide (is_Some (d !! k))).

(** [d[k] = v] *)
Definition dict_setitem (l : loc) (k : string) (v : pyval) : M unit :=
  d ← deref l; store l (<[k := v]> d).

(** [d.pop(k)]: removes [k] and returns its value; [KeyError(k)] when [k] is
    not a key. *)
Definition dict_pop (l : loc) (k : string) : M pyval :=
  d ← deref l;
  match d !! k with
  | Some v => store l (delete k d);; mret v
  | None => raise (KeyError [PStr k])
  end.

(** ** Argument validation *)

(** The types named in the [expect_types] decorators of the source, indexed
    by what an accepted value carries. *)
Inductive pytype : Type → Type :=
| str : pytype string
| dict : pytype loc
| Term : pytype term
| Filter : pytype term
| optional {A} : pytype A → pytype (option A).

(** Modelled from the spec: the classes [Term] and [Filter]
    ([zipline.modelling.term], [zipline.modelling.filter]) and the helper
    [optional] ([zipline.utils.preprocess]) are not part of the sources at
    hand.  Every term satisfies the Term capability, only a filter satisfies
    the Filter capability, and an optional argument also accepts [None]. *)
Fixpoint downcast {A} (T : pytype A) (v : pyval) : option A :=
  match T in pytype A return option A with
  | str => match v with PStr s => Some s | _ => None end
  | dict => match v with PDict l => Some l | _ => None end
  | Term => match v with PTerm t => Some t | _ => None end
  | Filter =>
      match v with
      | PTerm t => if decide (term_kind_of t = KFilter) then Some t else None
      | _ => None
      end
  | optional T' =>
      match v with
      | PNone => Some None
      | _ => Some <$> downcast T' v
      end
  end.

Definition isinstance {A} (v : pyval) (T : pytype A) : bool :=
  bool_decide (is_Some (downcast T v)).

(** Modelled from the spec: the decorator [expect_types]
    ([zipline.utils.preprocess]) is not part of the sources at hand.  It
    checks a named argument against its type before the body of the decorated
    function runs and raises a type-mismatch error otherwise; it touches no
    state.  A decorator naming several arguments checks them in the order of
    the signature. *)
Definition expect_types {A} (funcname argname : string) (T : pytype A)
    (v : pyval) : M A :=
  match downcast T v with
  | Some a => mret a
  | None => raise (TypeError funcname argname)
  end.

(** ** The Pipeline class *)

(** The line feed of the Python literal. *)
Definition nl : string := String (Ascii.ascii_of_nat 10) EmptyString.

Module Pipeline.

(** [def __init__(self, name, columns=None, screen=None)], decorated with
    [expect_types(name=str, columns=optional(dict), screen=optional(Filter))] *)
Definition __init__ (name columns screen : pyval) : M unit :=
  name ← expect_types "__init__" "name" str name;
  columns ← expect_types "__init__" "columns" (optional dict) columns;
  screen ← expect_types "__init__" "screen" (optional Filter) screen;
  setattr (set_name name);;
  columns ← match columns with
            | None => dict_new
            | Some l => mret l
            end;
  setattr (set_columns columns);;
  setattr (set_screen_slot screen).

(** The three read-only properties. *)
Definition name : M string := getattr "_name" _name.
Definition columns : M loc := getattr "_columns" _columns.
Definition screen : M (option term) := getattr "_screen" _screen.

(** [def remove(self, name)], decorated with [expect_types(name=str)].
    (Declared before [add], which calls it.) *)
Definition remove (name : pyval) : M pyval :=
  key ← expect_types "remove" "name" str name;
  c ← columns;
  dict_pop c key.

(** [def add(self, term, name, overwrite=False)], decorated with
    [expect_types(term=Term, name=str)] *)
Definition add (term name : pyval) (overwrite : bool) : M unit :=
  _ ← expect_types "add" "term" Term term;
  key ← expect_types "add" "name" str name;
  columns ← columns;
  present ← dict_contains columns key;
  (if present : bool then
     if overwrite then
       _ ← remove name; mret ()
     else
       raise (KeyError [PStr ("Column '" +:+ key +:+ "' already exists.")])
   else mret ());;
  c ← getattr "_columns" _columns;
  dict_setitem c key term.

Definition set_screen_message : string :=
  "set_screen() called with overwrite=False and screen already " +:+
  "set." +:+ nl +:+
  "If you want to apply multiple filters as a screen use " +:+
  "set_screen(filter1 & filter2 & ...)." +:+ nl +:+
  "If you want to replace the previous screen with a new one, " +:+
  "use set_screen(new_filter, overwrite=True).".

Definition is_not_None {A} (o : option A) : bool :=
  match o with Some _ => true | None => false end.

(** [def set_screen(self, screen, overwrite=False)], decorated with
    [expect_types(screen=Filter)] *)
Definition set_screen (screen : pyval) (overwrite : bool) : M unit :=
  f ← expect_types "set_screen" "screen" Filter screen;
  cur ← getattr "_screen" _screen;
  (if is_not_None cur && negb overwrite then
     raise (ValueError [PStr set_screen_message])
   else mret ());;
  setattr (set_screen_slot (Some f)).

Section to_graph.

(** The graph compiler [TermGraph] ([zipline.modelling.graph]) is an external
    collaborator: any function from the mapping it is handed to the artifact
    it builds. *)
Context {G : Type} (TermGraph : dict_contents → G).

(** [def to_graph(self, screen_name, default_screen)] (not decorated) *)
Definition to_graph (screen_name : string) (default_screen : pyval) : M G :=
  c ← columns;
  columns ← dict_copy c;
  screen ← screen;
  let screen := match screen with
                | None => default_screen
                | Some f => PTerm f
                end in
  dict_setitem columns screen_name screen;;
  d ← deref columns;
  mret (TermGraph d).

End to_graph.

(** [Pipeline(name, columns, screen)]: a new instance, initialised by
    [__init__]; the instance is the value of the call only when [__init__]
    returns. *)
Definition new (name columns screen : pyval) (h : gmap loc dict_contents)
    : outcome instance * state :=
  match __init__ name columns screen {| heap := h; self := blank |} with
  | (Return _, σ) => (Return (self σ), σ)
  | (Raise e, σ) => (Raise e, σ)
  end.

End Pipeline.

(** ** Observing a container *)

(** The mapping the container's [_columns] refers to. *)
Definition columns_of (σ : state) : option dict_contents :=
  l ← _columns (self σ); heap σ !! l.

(** The term bound to a column name, if any. *)
Definition column (σ : state) (k : string) : option pyval :=
  d ← columns_of σ; d !! k.

(** An initialised container: [__init__] has assigned the three slots and
    [_columns] refers to a dict of the store. *)
Definition initialised (σ : state) : Prop :=
  is_Some (_name (self σ)) ∧ is_Some (columns_of σ) ∧ is_Some (_screen (self σ)).

(** [sub] occurs in [s]. *)
Definition occurs_in (sub s : string) : Prop :=
  ∃ pre post : string, s = pre +:+ sub +:+ post.

(** A call of one of the three mutating methods, and what it does.  [add]
    and [set_screen] return [None]. *)
Inductive call :=
| Add (term name : pyval) (overwrite : bool)
| Remove (name : pyval)
| SetScreen (screen : pyval) (overwrite : bool).

Definition exec (c : call) : M pyval :=
  match c with
  | Add term name overwrite => Pipeline.add term name overwrite;; mret PNone
  | Remove name => Pipeline.remove name
  | SetScreen screen overwrite => Pipeline.set_screen screen overwrite;; mret PNone
  end.

(** The simple replace the specification compares [add] with
    [overwrite=True] to: one assignment [columns[name] = term], not routed
    through [remove]. *)
Definition simple_replace (name : string) (term : pyval) : M unit :=
  c ← Pipeline.columns;
  dict_setitem c name term.

(** The state in which the dict at [l] has the contents [d], and the state in
    which the instance is [o]. *)
Definition with_dict (σ : state) (l : loc) (d : dict_contents) : state :=
  {| heap := <[l := d]> (heap σ); self := self σ |}.

Definition with_self (σ : state) (o : instance) : state :=
  {| heap := heap σ; self := o |}.

(** What the specification says of constructor arguments.  An argument
    left out takes its default [None]; an argument is given when it is not
    [None]. *)
Definition is_string (v : pyval) : Prop := ∃ s : string, v = PStr s.
Definition is_mapping (v : pyval) : Prop := ∃ l : loc, v = PDict l.
Definition given (v : pyval) : Prop := v ≠ PNone.
Definition is_term_not_filter (v : pyval) : Prop :=
  ∃ t : term, v = PTerm t ∧ term_kind_of t ≠ KFilter.

(** ** Sample objects *)

Definition some_factor : term := MkTerm KFactor 0.
Definition some_other_factor : term := MkTerm KFactor 1.
Definition some_filter : term := MkTerm KFilter 2.
Definition some_other_filter : term := MkTerm KFilter 3.

(** [SomeFactor() > 5]: comparing a factor yields a filter. *)
Definition factor_gt_5 : term := MkTerm KFilter 4.

(** The store before any dict exists, with the instance [object.__new__]
    made. *)
Definition fresh_world : state := {| heap := ∅; self := blank |}.

(** [{'f': SomeFactor()}] *)
Definition sample_columns : dict_contents := {[ "f" := PTerm some_factor ]}.

(** [Pipeline('test', columns={'f': SomeFactor()})], its dict at location 1. *)
Definition p_with_column : state :=
  {| heap := {[ 1%positive := sample_columns ]};
     self := {| _name := Some "test"; _columns := Some 1%positive;
                _screen := Some None |} |}.

(** [Pipeline('test', columns={'f': SomeFactor()}, screen=SomeFilter())] *)
Definition p_with_screen : state :=
  {| heap := {[ 1%positive := sample_columns ]};
     self := {| _name := Some "test"; _columns := Some 1%positive;
                _screen := Some (Some some_filter) |} |}.

(** ** Histories of calls *)

(** Anything a caller can do with a container once it is built: one of the
    mutating calls, or a compilation with [to_graph]. *)
Inductive action :=
| Mutate (c : call)
| ToGraph (screen_name : string) (default_screen : pyval).

(** The state an action leaves, whether it returned or raised (a caller may
    catch the exception and go on).  The state [to_graph] leaves does not
    depend on the graph compiler, taken here to return the mapping itself. *)
Definition step (a : action) (σ : state) : state :=
  match a with
  | Mutate c => (exec c σ).2
  | ToGraph screen_name default_screen =>
      (Pipeline.to_graph (λ d, d) screen_name default_screen σ).2
  end.

(** The state after a list of actions, the first of the list first. *)
Definition history (acts : list action) (σ : state) : state :=
  foldl (λ σ a, step a σ) σ acts.

(** The screen, when there is one, is a filter. *)
Definition screen_is_filter (σ : state) : Prop :=
  ∀ f : term, _screen (self σ) = Some (Some f) → term_kind_of f = KFilter.

(** Every column of the container is bound to a term. *)
Definition columns_are_terms (σ : state) : Prop :=
  ∀ (d : dict_contents) (k : string) (v : pyval),
    columns_of σ = Some d → d !! k = Some v → ∃ t : term, v = PTerm t.

(** [Pipeline('test')], its dict at location 1. *)
Definition p_empty : state :=
  {| heap := {[ 1%positive := ∅ ]};
     self := {| _name := Some "test"; _columns := Some 1%positive;
                _screen := Some None |} |}.

(** ** Running the primitives *)

Ltac unfold_methods :=
  unfold exec, simple_replace, Pipeline.new, Pipeline.__init__, Pipeline.add,
    Pipeline.remove, Pipeline.set_screen, Pipeline.to_graph, Pipeline.name,
    Pipeline.columns, Pipeline.screen, dict_new, dict_copy, dict_contains,
    dict_setitem, dict_pop, expect_types in *.

Ltac unfold_monad :=
  unfold mbind, M_bind, bind, mret, M_ret, ret, raise, getattr, setattr,
    deref, store, alloc in *.

Ltac run := unfold_methods; unfold_monad; simpl in *.

Lemma is_not_None_Some {A} (o : option A) :
  Pipeline.is_not_None o = true ↔ is_Some o.
Proof. destruct o; simpl; split; intros H; try done; by destruct H. Qed.

Lemma fresh_loc_not_in (h : gmap loc dict_contents) : h !! fresh (dom h) = None.
Proof. apply not_elem_of_dom, is_fresh. Qed.

Lemma fresh_loc_ne (h : gmap loc dict_contents) l d :
  h !! l = Some d → l ≠ fresh (dom h).
Proof. intros Hl ->. by rewrite fresh_loc_not_in in Hl. Qed.

(** [expect_types] returns exactly on the values [isinstance] accepts, and
    never touches the state. *)
Lemma expect_types_isinstance {A} (funcname argname : string) (T : pytype A)
    (v : pyval) (σ : state) :
  if isinstance v T
  then ∃ a : A, downcast T v = Some a ∧ expect_types funcname argname T v σ = (Return a, σ)
  else expect_types funcname argname T v σ = (Raise (TypeError funcname argname), σ).
Proof.
  unfold isinstance, expect_types. destruct (downcast T v) as [a|] eqn:Hd.
  - rewrite bool_decide_eq_true_2 by done. by exists a.
  - rewrite bool_decide_eq_false_2; [done|]. by intros [a Ha].
Qed.

(** A filter is a term: what passes for [Filter] passes for [Term]. *)
Lemma Filter_is_Term (v : pyval) :
  isinstance v Filter = true → isinstance v Term = true.
Proof.
  unfold isinstance. by destruct v.
Qed.

(** ** Initialised containers *)

(** The constructor, when it returns, has initialised the container, provided
    the columns argument, if it is a dict, is one of the store. *)
Lemma new_initialised (name columns screen : pyval)
    (h : gmap loc dict_contents) (inst : instance) (σ : state) :
  (∀ l : loc, columns = PDict l → is_Some (h !! l)) →
  Pipeline.new name columns screen h = (Return inst, σ) →
  initialised σ ∧ self σ = inst.
Proof.
  intros Hdict Hnew. unfold initialised, columns_of. run.
  repeat (case_match; simplify_eq/=; try done); repeat split; try done;
    try (by apply Hdict); by rewrite lookup_insert_eq.
Qed.

(** The three mutating methods keep the container initialised, whether they
    return or raise. *)
Lemma exec_initialised (c : call) (σ σ' : state) (r : outcome pyval) :
  initialised σ → exec c σ = (r, σ') → initialised σ'.
Proof.
  unfold initialised, columns_of.
  intros (Hn & Hc & Hs) Hex.
  destruct σ as [h o]. destruct c as [term name ow | name | scr ow]; run.
  - repeat (case_match; simplify_eq/=; try done);
      rewrite ?lookup_insert_eq in *; simplify_eq/=; try done;
      repeat split; try done;
      match goal with H : _columns _ = Some _ |- _ => rewrite H end; simpl;
      by rewrite lookup_insert_eq.
  - repeat (case_match; simplify_eq/=; try done);
      repeat split; try done;
      match goal with H : _columns _ = Some _ |- _ => rewrite H end; simpl;
      by rewrite lookup_insert_eq.
  - repeat (case_match; simplify_eq/=; try done).
Qed.

(** On an initialised container the methods raise only the exceptions of the
    source: no slot is read before it is assigned and no reference dangles. *)
Lemma exec_raises_documented (c : call) (σ σ' : state) (e : exn) :
  initialised σ → exec c σ = (Raise e, σ') →
  match e with
  | TypeError _ _ | KeyError _ | ValueError _ => True
  | AttributeError _ | SystemError => False
  end.
Proof.
  unfold initialised, columns_of.
  destruct σ as [h [n [l|] s]]; simpl; intros ([n' ->] & [cols Hl] & [s' ->]);
    [|done].
  intros Hex. destruct c as [term name ow | name | scr ow]; run.
  - repeat (case_match; simplify_eq/=; try done);
      rewrite ?lookup_insert_eq in *; simplify_eq/=; done.
  - repeat (case_match; simplify_eq/=; try done).
  - repeat (case_match; simplify_eq/=; try done).
Qed.

(** The constructor stores the dict it is given, not a copy of it: the
    container's [_columns] is the caller's reference and the store is as it
    was. *)
Lemma new_keeps_given_dict (n : string) (l : loc) (h : gmap loc dict_contents) :
  Pipeline.new (PStr n) (PDict l) PNone h
  = (Return {| _name := Some n; _columns := Some l; _screen := Some None |},
     {| heap := h;
        self := {| _name := Some n; _columns := Some l; _screen := Some None |} |}).
Proof. reflexivity. Qed.

(** ** The scenarios of [tests/modelling/test_pipeline.py] *)

Example test_construction :
  Pipeline.new (PStr "arglebargle") PNone PNone ∅
  = (Return {| _name := Some "arglebargle"; _columns := Some 1%positive;
               _screen := Some None |},
     {| heap := {[ 1%positive := ∅ ]};
        self := {| _name := Some "arglebargle"; _columns := Some 1%positive;
                   _screen := Some None |} |}).
Proof. reflexivity. Qed.

Example test_add :
  let prog := Pipeline.__init__ (PStr "test") PNone PNone;;
              Pipeline.add (PTerm some_factor) (PStr "f") false;;
              Pipeline.add (PTerm factor_gt_5) (PStr "g") false in
  (prog fresh_world).1 = Return ()
  ∧ columns_of (prog fresh_world).2
    = Some (<["g" := PTerm factor_gt_5]> {[ "f" := PTerm some_factor ]})
  ∧ ((prog;; Pipeline.add (PTerm some_factor) (PInt 1) false) fresh_world).1
    = Raise (TypeError "add" "name").
Proof. repeat split; reflexivity. Qed.

Example test_overwrite :
  let prog := Pipeline.__init__ (PStr "test") PNone PNone;;
              Pipeline.add (PTerm some_factor) (PStr "f") false in
  ((prog;; Pipeline.add (PTerm some_other_factor) (PStr "f") false) fresh_world).1
  = Raise (KeyError [PStr "Column 'f' already exists."])
  ∧ columns_of
      ((prog;; Pipeline.add (PTerm some_other_factor) (PStr "f") true) fresh_world).2
    = Some {[ "f" := PTerm some_other_factor ]}.
Proof. repeat split; reflexivity. Qed.

Example test_remove :
  (Pipeline.remove (PStr "not_a_real_name") p_with_column).1
  = Raise (KeyError [PStr "not_a_real_name"])
  ∧ (Pipeline.remove (PStr "f") p_with_column).1 = Return (PTerm some_factor)
  ∧ ((Pipeline.remove (PStr "f");; Pipeline.remove (PStr "f")) p_with_column).1
    = Raise (KeyError [PStr "f"]).
Proof. repeat split; reflexivity. Qed.

Example test_set_screen :
  let prog := Pipeline.__init__ (PStr "test") PNone PNone;;
              Pipeline.set_screen (PTerm some_filter) false in
  _screen (self (prog fresh_world).2) = Some (Some some_filter)
  ∧ ((prog;; Pipeline.set_screen (PTerm some_filter) false) fresh_world).1
    = Raise (ValueError [PStr Pipeline.set_screen_message])
  ∧ _screen (self ((prog;; Pipeline.set_screen (PTerm some_other_filter) true)
                     fresh_world).2)
    = Some (Some some_other_filter).
Proof. repeat split; reflexivity. Qed.

(** * Properties *)

(** C1: on a pipeline whose columns already bind the string [name], the call
    [add(term, name)] with [overwrite=False] raises a [KeyError] whose message
    is ["Column '<name>' already exists."], which contains the colliding
    name, and the state is the one before the call: the columns mapping is
    unchanged and [name] is still bound to its prior term. *)
Theorem add_existing_raises_KeyError
    (σ : state) (l : loc) (cols : dict_contents) (prior : pyval)
    (t : term) (name : string) :
  _columns (self σ) = Some l →
  heap σ !! l = Some cols →
  cols !! name = Some prior →
  ∃ (msg : string) (σ' : state),
    Pipeline.add (PTerm t) (PStr name) false σ = (Raise (KeyError [PStr msg]), σ')
    ∧ msg = "Column '" +:+ name +:+ "' already exists."
    ∧ occurs_in name msg
    ∧ σ' = σ
    ∧ columns_of σ' = Some cols
    ∧ column σ' name = Some prior.
Proof.
  intros Hc Hl Hk.
  exists ("Column '" +:+ name +:+ "' already exists."), σ.
  split.
  - run. rewrite Hc. simpl. rewrite Hl. simpl.
    rewrite bool_decide_eq_true_2 by (by rewrite Hk). done.
  - repeat split.
    + by exists "Column '", "' already exists.".
    + unfold columns_of. rewrite Hc. simpl. done.
    + unfold column, columns_of. rewrite Hc. simpl. rewrite Hl. simpl. done.
Qed.

Lemma add_existing_raises_KeyError_witness :
  _columns (self p_with_column) = Some 1%positive
  ∧ heap p_with_column !! 1%positive = Some sample_columns
  ∧ sample_columns !! "f" = Some (PTerm some_factor)
  ∧ ∃ (msg : string) (σ' : state),
      Pipeline.add (PTerm some_other_factor) (PStr "f") false p_with_column
        = (Raise (KeyError [PStr msg]), σ')
      ∧ msg = "Column '" +:+ "f" +:+ "' already exists."
      ∧ occurs_in "f" msg
      ∧ σ' = p_with_column
      ∧ columns_of σ' = Some sample_columns
      ∧ column σ' "f" = Some (PTerm some_factor).
Proof.
  split; [reflexivity|]. split; [reflexivity|]. split; [reflexivity|].
  apply (add_existing_raises_KeyError p_with_column 1%positive sample_columns
           (PTerm some_factor) some_other_factor "f"); reflexivity.
Defined.

(** C2: on a pipeline whose columns bind [name], [add(t2, name,
    overwrite=True)] is [remove(name)] followed by the assignment
    [columns[name] = t2]; its net effect is that of a simple replace:
    afterwards [name] is bound to [t2] and every other column is as before. *)
Theorem add_overwrite_is_replace
    (σ : state) (l : loc) (cols : dict_contents) (prior : pyval)
    (t2 : term) (name : string) :
  _columns (self σ) = Some l →
  heap σ !! l = Some cols →
  cols !! name = Some prior →
  ∃ σ' : state,
    Pipeline.add (PTerm t2) (PStr name) true σ = (Return (), σ')
    ∧ Pipeline.add (PTerm t2) (PStr name) true σ
      = (Pipeline.remove (PStr name);; dict_setitem l name (PTerm t2)) σ
    ∧ Pipeline.remove (PStr name) σ = (Return prior, with_dict σ l (delete name cols))
    ∧ Pipeline.add (PTerm t2) (PStr name) true σ = simple_replace name (PTerm t2) σ
    ∧ σ' = with_dict σ l (<[name := PTerm t2]> cols)
    ∧ column σ' name = Some (PTerm t2)
    ∧ ∀ k : string, k ≠ name → column σ' k = column σ k.
Proof.
  intros Hc Hl Hk.
  exists (with_dict σ l (<[name := PTerm t2]> cols)).
  assert (Hadd : Pipeline.add (PTerm t2) (PStr name) true σ
                 = (Return (), with_dict σ l (<[name := PTerm t2]> cols))).
  { run. rewrite Hc. simpl. rewrite Hl. simpl.
    rewrite bool_decide_eq_true_2 by (by rewrite Hk).
    rewrite Hc. simpl. rewrite Hl, Hk. simpl. rewrite Hc. simpl.
    rewrite lookup_insert_eq. simpl. unfold with_dict.
    by rewrite insert_insert_eq, insert_delete_eq. }
  assert (Hrem : Pipeline.remove (PStr name) σ
                 = (Return prior, with_dict σ l (delete name cols))).
  { run. rewrite Hc. simpl. by rewrite Hl, Hk. }
  split; [done|]. split.
  { rewrite Hadd. unfold mbind at 1, M_bind, bind. rewrite Hrem.
    run. rewrite lookup_insert_eq. simpl.
    by rewrite insert_insert_eq, insert_delete_eq. }
  split; [done|]. split.
  { rewrite Hadd. run. rewrite Hc. simpl. by rewrite Hl. }
  split; [done|]. split.
  - unfold column, columns_of. simpl. rewrite Hc. simpl.
    rewrite lookup_insert_eq. simpl. by rewrite lookup_insert_eq.
  - intros k Hne. unfold column, columns_of. simpl. rewrite Hc. simpl.
    rewrite lookup_insert_eq, Hl. simpl. by rewrite lookup_insert_ne.
Qed.

Lemma add_overwrite_is_replace_witness :
  _columns (self p_with_column) = Some 1%positive
  ∧ heap p_with_column !! 1%positive = Some sample_columns
  ∧ sample_columns !! "f" = Some (PTerm some_factor)
  ∧ ∃ σ' : state,
      Pipeline.add (PTerm some_other_factor) (PStr "f") true p_with_column
        = (Return (), σ')
      ∧ Pipeline.add (PTerm some_other_factor) (PStr "f") true p_with_column
        = (Pipeline.remove (PStr "f");;
           dict_setitem 1%positive "f" (PTerm some_other_factor)) p_with_column
      ∧ Pipeline.remove (PStr "f") p_with_column
        = (Return (PTerm some_factor),
           with_dict p_with_column 1%positive (delete "f" sample_columns))
      ∧ Pipeline.add (PTerm some_other_factor) (PStr "f") true p_with_column
        = simple_replace "f" (PTerm some_other_factor) p_with_column
      ∧ σ' = with_dict p_with_column 1%positive
               (<["f" := PTerm some_other_factor]> sample_columns)
      ∧ column σ' "f" = Some (PTerm some_other_factor)
      ∧ ∀ k : string, k ≠ "f" → column σ' k = column p_with_column k.
Proof.
  split; [reflexivity|]. split; [reflexivity|]. split; [reflexivity|].
  apply (add_overwrite_is_replace p_with_column 1%positive sample_columns
           (PTerm some_factor) some_other_factor "f"); reflexivity.
Defined.

(** C3: [remove(name)] deletes the entry for [name] from the columns and
    returns the term that was bound to it; when [name] is not a key it raises
    a [KeyError] whose [args] is the one-element tuple [(name,)] and leaves
    the state, hence the columns mapping, unchanged. *)
Theorem remove_pops_or_raises
    (σ : state) (l : loc) (cols : dict_contents) (name : string) :
  _columns (self σ) = Some l →
  heap σ !! l = Some cols →
  match cols !! name with
  | Some bound =>
      ∃ σ' : state,
        Pipeline.remove (PStr name) σ = (Return bound, σ')
        ∧ columns_of σ' = Some (delete name cols)
        ∧ column σ' name = None
        ∧ self σ' = self σ
  | None =>
      Pipeline.remove (PStr name) σ = (Raise (KeyError [PStr name]), σ)
  end.
Proof.
  intros Hc Hl. destruct (cols !! name) as [bound|] eqn:Hk.
  - exists (with_dict σ l (delete name cols)). split.
    { run. rewrite Hc. simpl. by rewrite Hl, Hk. }
    unfold column, columns_of. simpl. rewrite Hc. simpl.
    rewrite lookup_insert_eq. simpl. by rewrite lookup_delete_eq.
  - run. rewrite Hc. simpl. by rewrite Hl, Hk.
Qed.

Lemma remove_pops_or_raises_witness :
  _columns (self p_with_column) = Some 1%positive
  ∧ heap p_with_column !! 1%positive = Some sample_columns
  ∧ (∃ σ' : state,
       Pipeline.remove (PStr "f") p_with_column = (Return (PTerm some_factor), σ')
       ∧ columns_of σ' = Some (delete "f" sample_columns)
       ∧ column σ' "f" = None
       ∧ self σ' = self p_with_column)
  ∧ Pipeline.remove (PStr "not_a_real_name") p_with_column
    = (Raise (KeyError [PStr "not_a_real_name"]), p_with_column).
Proof.
  split; [reflexivity|]. split; [reflexivity|]. split.
  - apply (remove_pops_or_raises p_with_column 1%positive sample_columns "f");
      reflexivity.
  - apply (remove_pops_or_raises p_with_column 1%positive sample_columns
             "not_a_real_name"); reflexivity.
Defined.

(** C4: on a pipeline whose screen is already set to a filter [f],
    [set_screen(g)] with [overwrite=False] raises a [ValueError] whose message
    is the literal text of the source, which spells out both remedies
    (combining the filters with [&], and passing [overwrite=True]), and the
    state is unchanged, so the screen is still [f];
    [set_screen(g, overwrite=True)] makes [g] the screen. *)
Theorem set_screen_conflict
    (σ : state) (f g : term) :
  _screen (self σ) = Some (Some f) →
  term_kind_of g = KFilter →
  (Pipeline.set_screen (PTerm g) false σ
     = (Raise (ValueError [PStr Pipeline.set_screen_message]), σ)
   ∧ occurs_in
       "If you want to apply multiple filters as a screen use set_screen(filter1 & filter2 & ...)."
       Pipeline.set_screen_message
   ∧ occurs_in
       "If you want to replace the previous screen with a new one, use set_screen(new_filter, overwrite=True)."
       Pipeline.set_screen_message
   ∧ Pipeline.screen σ = (Return (Some f), σ))
  ∧ ∃ σ' : state,
      Pipeline.set_screen (PTerm g) true σ = (Return (), σ')
      ∧ σ' = with_self σ (set_screen_slot (Some g) (self σ))
      ∧ Pipeline.screen σ' = (Return (Some g), σ').
Proof.
  intros Hs Hg. split.
  - split; [|split; [|split]].
    + run. rewrite Hg. simpl. by rewrite Hs.
    + exists ("set_screen() called with overwrite=False and screen already set."
              +:+ nl),
             (nl +:+ "If you want to replace the previous screen with a new one, use set_screen(new_filter, overwrite=True).").
      reflexivity.
    + exists ("set_screen() called with overwrite=False and screen already set."
              +:+ nl +:+
              "If you want to apply multiple filters as a screen use set_screen(filter1 & filter2 & ...)."
              +:+ nl),
             EmptyString.
      reflexivity.
    + run. by rewrite Hs.
  - exists (with_self σ (set_screen_slot (Some g) (self σ))).
    split; [|done].
    run. rewrite Hg. simpl. by rewrite Hs.
Qed.

Lemma set_screen_conflict_witness :
  _screen (self p_with_screen) = Some (Some some_filter)
  ∧ term_kind_of some_other_filter = KFilter
  ∧ (Pipeline.set_screen (PTerm some_other_filter) false p_with_screen
       = (Raise (ValueError [PStr Pipeline.set_screen_message]), p_with_screen)
     ∧ occurs_in
         "If you want to apply multiple filters as a screen use set_screen(filter1 & filter2 & ...)."
         Pipeline.set_screen_message
     ∧ occurs_in
         "If you want to replace the previous screen with a new one, use set_screen(new_filter, overwrite=True)."
         Pipeline.set_screen_message
     ∧ Pipeline.screen p_with_screen = (Return (Some some_filter), p_with_screen))
  ∧ ∃ σ' : state,
      Pipeline.set_screen (PTerm some_other_filter) true p_with_screen
        = (Return (), σ')
      ∧ σ' = with_self p_with_screen
               (set_screen_slot (Some some_other_filter) (self p_with_screen))
      ∧ Pipeline.screen σ' = (Return (Some some_other_filter), σ').
Proof.
  split; [reflexivity|]. split; [reflexivity|].
  apply (set_screen_conflict p_with_screen some_filter some_other_filter);
    reflexivity.
Defined.

(** C5: [to_graph(screen_name, default_screen)] builds a new mapping, a copy
    of the current columns with one more entry that binds [screen_name] to the
    container's screen if one is set and to [default_screen] otherwise, hands
    exactly that mapping to the graph compiler and returns its artifact.  The
    new mapping binds [screen_name] to the effective screen also when
    [screen_name] is a column name, and the container's own columns keep their
    entries: the overwrite happens in the projection only. *)
Theorem to_graph_projection {G : Type} (TermGraph : dict_contents → G)
    (σ : state) (l : loc) (cols : dict_contents) (scr : option term)
    (screen_name : string) (default_screen : pyval) :
  _columns (self σ) = Some l →
  heap σ !! l = Some cols →
  _screen (self σ) = Some scr →
  let effective := match scr with
                   | Some f => PTerm f
                   | None => default_screen
                   end in
  ∃ (l' : loc) (projected : dict_contents) (σ' : state),
    Pipeline.to_graph TermGraph screen_name default_screen σ
      = (Return (TermGraph projected), σ')
    ∧ heap σ !! l' = None
    ∧ heap σ' !! l' = Some projected
    ∧ projected = <[screen_name := effective]> cols
    ∧ projected !! screen_name = Some effective
    ∧ (∀ k : string, k ≠ screen_name → projected !! k = cols !! k)
    ∧ columns_of σ' = Some cols.
Proof.
  intros Hc Hl Hs effective.
  exists (fresh (dom (heap σ))), (<[screen_name := effective]> cols),
    (with_dict σ (fresh (dom (heap σ))) (<[screen_name := effective]> cols)).
  split.
  { run. rewrite Hc. simpl. rewrite Hl. simpl. rewrite Hs. simpl.
    rewrite lookup_insert_eq. simpl. rewrite lookup_insert_eq.
    unfold with_dict. simpl. by rewrite insert_insert_eq. }
  split; [apply fresh_loc_not_in|].
  split; [simpl; apply lookup_insert_eq|].
  split; [done|].
  split; [apply lookup_insert_eq|].
  split; [intros k Hk; by apply lookup_insert_ne|].
  unfold columns_of. simpl. rewrite Hc. simpl.
  rewrite lookup_insert_ne; [done|].
  apply not_eq_sym. by eapply fresh_loc_ne.
Qed.

Lemma to_graph_projection_witness :
  _columns (self p_with_screen) = Some 1%positive
  ∧ heap p_with_screen !! 1%positive = Some sample_columns
  ∧ _screen (self p_with_screen) = Some (Some some_filter)
  ∧ ∃ (l' : loc) (projected : dict_contents) (σ' : state),
      Pipeline.to_graph id "f" (PTerm some_other_filter) p_with_screen
        = (Return projected, σ')
      ∧ heap p_with_screen !! l' = None
      ∧ heap σ' !! l' = Some projected
      ∧ projected = <["f" := PTerm some_filter]> sample_columns
      ∧ projected !! "f" = Some (PTerm some_filter)
      ∧ (∀ k : string, k ≠ "f" → projected !! k = sample_columns !! k)
      ∧ columns_of σ' = Some sample_columns.
Proof.
  split; [reflexivity|]. split; [reflexivity|]. split; [reflexivity|].
  apply (to_graph_projection id p_with_screen 1%positive sample_columns
           (Some some_filter) "f" (PTerm some_other_filter)); reflexivity.
Defined.

(** The only effect of [to_graph] on the store is the allocation of the
    copy, which happens once the container's own dict has been read. *)
Lemma to_graph_allocates_only {G : Type} (TermGraph : dict_contents → G)
    (σ : state) (screen_name : string) (default_screen : pyval) :
  let σ' := (Pipeline.to_graph TermGraph screen_name default_screen σ).2 in
  σ' = σ
  ∨ ∃ d : dict_contents,
      is_Some (columns_of σ) ∧ σ' = with_dict σ (fresh (dom (heap σ))) d.
Proof.
  destruct σ as [h o]. unfold columns_of. run.
  destruct (_columns o) as [l|]; simpl; [|by left].
  destruct (h !! l) as [cols|]; simpl; [|by left].
  right. destruct (_screen o) as [scr|]; simpl.
  - repeat (rewrite ?lookup_insert_eq, ?insert_insert_eq; simpl).
    by eexists.
  - by eexists.
Qed.

(** A dict that exists is not touched by an allocation. *)
Lemma alloc_frame (h : gmap loc dict_contents) (l : loc) (d d' : dict_contents) :
  h !! l = Some d → <[fresh (dom h) := d']> h !! l = Some d.
Proof.
  intros Hl. rewrite lookup_insert_ne; [done|].
  apply not_eq_sym. by eapply fresh_loc_ne.
Qed.

(** C6: whatever [screen_name] and [default_screen] are, a call of [to_graph]
    leaves the container as it was: the slots of the instance (its name, its
    reference to the columns, its screen), the mapping its [_columns] refers
    to and every dict that existed before the call are unchanged. *)
Theorem to_graph_does_not_mutate {G : Type} (TermGraph : dict_contents → G)
    (σ : state) (screen_name : string) (default_screen : pyval) :
  let σ' := (Pipeline.to_graph TermGraph screen_name default_screen σ).2 in
  self σ' = self σ
  ∧ columns_of σ' = columns_of σ
  ∧ _screen (self σ') = _screen (self σ)
  ∧ ∀ (l : loc) (d : dict_contents), heap σ !! l = Some d → heap σ' !! l = Some d.
Proof.
  intros σ'.
  destruct (to_graph_allocates_only TermGraph σ screen_name default_screen)
    as [Heq | (d' & [cols Hcols] & Heq)]; fold σ' in Heq; rewrite Heq; [done|].
  repeat split; [|intros l d; apply alloc_frame].
  rewrite Hcols. unfold columns_of in *. simpl.
  destruct (_columns (self σ)) as [l|]; simpl in *; [|done].
  by apply alloc_frame.
Qed.

(** C7: a call of [add], [remove] or [set_screen] that raises, whatever the
    exception (type mismatch on an argument, key collision, key not found,
    screen conflict), leaves the whole state, and so the container's name,
    columns and screen, exactly as it was before the call. *)
Theorem failure_leaves_state_unchanged
    (c : call) (σ σ' : state) (e : exn) :
  exec c σ = (Raise e, σ') →
  σ' = σ
  ∧ _name (self σ') = _name (self σ)
  ∧ columns_of σ' = columns_of σ
  ∧ _screen (self σ') = _screen (self σ).
Proof.
  intros Hex. cut (σ' = σ); [by intros ->|].
  destruct σ as [h o]. destruct c as [term name ow | name | scr ow]; run.
  - repeat (case_match; simplify_eq/=; try done);
      rewrite ?lookup_insert_eq in *; simplify_eq/=; try done.
  - repeat (case_match; simplify_eq/=; try done).
  - repeat (case_match; simplify_eq/=; try done).
Qed.

Lemma failure_leaves_state_unchanged_witness :
  (* a type mismatch: [p.add(f, 1)] *)
  (let c := Add (PTerm some_factor) (PInt 1) false in
   exec c p_with_screen = (Raise (TypeError "add" "name"), (exec c p_with_screen).2)
   ∧ (exec c p_with_screen).2 = p_with_screen)
  (* a key collision: [p.add(other_f, 'f')] *)
  ∧ (let c := Add (PTerm some_other_factor) (PStr "f") false in
     exec c p_with_screen
       = (Raise (KeyError [PStr "Column 'f' already exists."]),
          (exec c p_with_screen).2)
     ∧ (exec c p_with_screen).2 = p_with_screen)
  (* a key that is not found: [p.remove('not_a_real_name')] *)
  ∧ (let c := Remove (PStr "not_a_real_name") in
     exec c p_with_screen
       = (Raise (KeyError [PStr "not_a_real_name"]), (exec c p_with_screen).2)
     ∧ (exec c p_with_screen).2 = p_with_screen)
  (* a screen conflict: [p.set_screen(g)] *)
  ∧ (let c := SetScreen (PTerm some_other_filter) false in
     exec c p_with_screen
       = (Raise (ValueError [PStr Pipeline.set_screen_message]),
          (exec c p_with_screen).2)
     ∧ (exec c p_with_screen).2 = p_with_screen).
Proof.
  split; [|split; [|split]]; intros c; (split; [reflexivity|]).
  - apply (failure_leaves_state_unchanged c p_with_screen
             (exec c p_with_screen).2 (TypeError "add" "name")).
    reflexivity.
  - apply (failure_leaves_state_unchanged c p_with_screen
             (exec c p_with_screen).2
             (KeyError [PStr "Column 'f' already exists."])).
    reflexivity.
  - apply (failure_leaves_state_unchanged c p_with_screen
             (exec c p_with_screen).2 (KeyError [PStr "not_a_real_name"])).
    reflexivity.
  - apply (failure_leaves_state_unchanged c p_with_screen
             (exec c p_with_screen).2
             (ValueError [PStr Pipeline.set_screen_message])).
    reflexivity.
Defined.

(** C8: constructing a pipeline with a name that is not a string, with a
    columns argument that is given and is not a mapping, or with a screen that
    is a term but not a filter, raises a [TypeError] while the instance is
    still blank (no slot assigned) and the store untouched; the constructor
    call yields no instance. *)
Theorem init_rejects_bad_types
    (name columns screen : pyval) (h : gmap loc dict_contents) :
  ¬ is_string name
  ∨ (given columns ∧ ¬ is_mapping columns)
  ∨ is_term_not_filter screen →
  ∃ argname : string,
    Pipeline.__init__ name columns screen {| heap := h; self := blank |}
      = (Raise (TypeError "__init__" argname), {| heap := h; self := blank |})
    ∧ Pipeline.new name columns screen h
      = (Raise (TypeError "__init__" argname), {| heap := h; self := blank |}).
Proof.
  unfold is_string, is_mapping, given, is_term_not_filter.
  intros Hbad.
  cut (∃ argname : string,
         Pipeline.__init__ name columns screen {| heap := h; self := blank |}
         = (Raise (TypeError "__init__" argname), {| heap := h; self := blank |})).
  { intros [a Ha]. exists a. split; [done|].
    unfold Pipeline.new. by rewrite Ha. }
  run.
  destruct name as [|?|n|?|?]; simpl; try by eexists.
  destruct columns as [|?|?|l|?]; simpl; try by eexists.
  - destruct screen as [|?|?|?|t]; simpl; try by eexists.
    + destruct Hbad as [Hn | [[Hc _] | (t & ? & _)]]; [|done..].
      destruct Hn. by eexists.
    + destruct (decide (term_kind_of t = KFilter)) as [Hf|Hf]; simpl;
        [|by eexists].
      destruct Hbad as [Hn | [[Hc _] | (t' & ? & Hk)]]; [|done|by simplify_eq].
      destruct Hn. by eexists.
  - destruct screen as [|?|?|?|t]; simpl; try by eexists.
    + destruct Hbad as [Hn | [[_ Hc] | (t & ? & _)]]; [| |done].
      * destruct Hn. by eexists.
      * destruct Hc. by eexists.
    + destruct (decide (term_kind_of t = KFilter)) as [Hf|Hf]; simpl;
        [|by eexists].
      destruct Hbad as [Hn | [[_ Hc] | (t' & ? & Hk)]]; [| |by simplify_eq].
      * destruct Hn. by eexists.
      * destruct Hc. by eexists.
Qed.

Lemma init_rejects_bad_types_witness :
  (* [Pipeline(1)] *)
  (¬ is_string (PInt 1)
   ∧ ∃ argname : string,
       Pipeline.__init__ (PInt 1) PNone PNone {| heap := ∅; self := blank |}
         = (Raise (TypeError "__init__" argname), {| heap := ∅; self := blank |})
       ∧ Pipeline.new (PInt 1) PNone PNone ∅
         = (Raise (TypeError "__init__" argname), {| heap := ∅; self := blank |}))
  (* [Pipeline('test', 1)] *)
  ∧ ((given (PInt 1) ∧ ¬ is_mapping (PInt 1))
     ∧ ∃ argname : string,
         Pipeline.__init__ (PStr "test") (PInt 1) PNone {| heap := ∅; self := blank |}
           = (Raise (TypeError "__init__" argname), {| heap := ∅; self := blank |})
         ∧ Pipeline.new (PStr "test") (PInt 1) PNone ∅
           = (Raise (TypeError "__init__" argname), {| heap := ∅; self := blank |}))
  (* [Pipeline('test', {}, SomeFactor())] *)
  ∧ (is_term_not_filter (PTerm some_factor)
     ∧ ∃ argname : string,
         Pipeline.__init__ (PStr "test") (PDict 1%positive) (PTerm some_factor)
             {| heap := {[ 1%positive := ∅ ]}; self := blank |}
           = (Raise (TypeError "__init__" argname),
              {| heap := {[ 1%positive := ∅ ]}; self := blank |})
         ∧ Pipeline.new (PStr "test") (PDict 1%positive) (PTerm some_factor)
             {[ 1%positive := ∅ ]}
           = (Raise (TypeError "__init__" argname),
              {| heap := {[ 1%positive := ∅ ]}; self := blank |})).
Proof.
  assert (H1 : ¬ is_string (PInt 1)) by (by intros [s Hs]).
  assert (H2 : given (PInt 1) ∧ ¬ is_mapping (PInt 1))
    by (split; [done | by intros [l Hl]]).
  assert (H3 : is_term_not_filter (PTerm some_factor))
    by (exists some_factor; split; [reflexivity | discriminate]).
  split; [|split]; (split; [assumption|]).
  - apply (init_rejects_bad_types (PInt 1) PNone PNone ∅). by left.
  - apply (init_rejects_bad_types (PStr "test") (PInt 1) PNone ∅).
    right. by left.
  - apply (init_rejects_bad_types (PStr "test") (PDict 1%positive)
             (PTerm some_factor) {[ 1%positive := ∅ ]}).
    right. by right.
Defined.

(** C9: for every string [n], [Pipeline(n)] returns an instance named [n]
    whose columns mapping is empty and whose screen is absent ([None]). *)
Theorem new_defaults (n : string) (h : gmap loc dict_contents) :
  ∃ (inst : instance) (σ : state) (l : loc),
    Pipeline.new (PStr n) PNone PNone h = (Return inst, σ)
    ∧ self σ = inst
    ∧ Pipeline.name σ = (Return n, σ)
    ∧ Pipeline.columns σ = (Return l, σ)
    ∧ heap σ !! l = Some ∅
    ∧ columns_of σ = Some ∅
    ∧ Pipeline.screen σ = (Return None, σ).
Proof.
  eexists _, _, (fresh (dom h)). split; [reflexivity|]. simpl.
  assert (Hl : <[fresh (dom h) := ∅]> h !! fresh (dom h)
               = Some (∅ : dict_contents)) by apply lookup_insert_eq.
  repeat split; try done.
Qed.

(** C10: a successful mutation touches only its own field.  A successful
    [add] or [remove] leaves the name and the screen of the container
    unchanged, and changes no dict other than the container's columns; a
    successful [set_screen] leaves the name and the columns mapping
    unchanged. *)
Theorem success_touches_own_field
    (c : call) (σ σ' : state) (v : pyval) :
  exec c σ = (Return v, σ') →
  _name (self σ') = _name (self σ)
  ∧ match c with
    | Add _ _ _ | Remove _ =>
        _screen (self σ') = _screen (self σ)
        ∧ _columns (self σ') = _columns (self σ)
        ∧ ∀ l : loc, _columns (self σ) ≠ Some l → heap σ' !! l = heap σ !! l
    | SetScreen _ _ =>
        _columns (self σ') = _columns (self σ)
        ∧ heap σ' = heap σ
        ∧ columns_of σ' = columns_of σ
    end.
Proof.
  intros Hex.
  destruct σ as [h o]. destruct c as [term name ow | name | scr ow];
    unfold columns_of; run.
  - repeat (case_match; simplify_eq/=; try done);
      rewrite ?lookup_insert_eq in *; simplify_eq/=;
      repeat split; try done;
      intros l' Hl'; rewrite ?insert_insert_eq;
      rewrite lookup_insert_ne; congruence.
  - repeat (case_match; simplify_eq/=; try done).
    repeat split; try done.
    intros l' Hl'. rewrite lookup_insert_ne; congruence.
  - repeat (case_match; simplify_eq/=; try done).
Qed.

Lemma success_touches_own_field_witness :
  (let c := Add (PTerm some_other_factor) (PStr "g") false in
   exec c p_with_screen = (Return PNone, (exec c p_with_screen).2)
   ∧ _name (self (exec c p_with_screen).2) = _name (self p_with_screen)
   ∧ _screen (self (exec c p_with_screen).2) = _screen (self p_with_screen)
   ∧ _columns (self (exec c p_with_screen).2) = _columns (self p_with_screen)
   ∧ ∀ l : loc, _columns (self p_with_screen) ≠ Some l →
       heap (exec c p_with_screen).2 !! l = heap p_with_screen !! l)
  ∧ (let c := Remove (PStr "f") in
     exec c p_with_screen = (Return (PTerm some_factor), (exec c p_with_screen).2)
     ∧ _name (self (exec c p_with_screen).2) = _name (self p_with_screen)
     ∧ _screen (self (exec c p_with_screen).2) = _screen (self p_with_screen)
     ∧ _columns (self (exec c p_with_screen).2) = _columns (self p_with_screen)
     ∧ ∀ l : loc, _columns (self p_with_screen) ≠ Some l →
         heap (exec c p_with_screen).2 !! l = heap p_with_screen !! l)
  ∧ (let c := SetScreen (PTerm some_other_filter) true in
     exec c p_with_screen = (Return PNone, (exec c p_with_screen).2)
     ∧ _name (self (exec c p_with_screen).2) = _name (self p_with_screen)
     ∧ _columns (self (exec c p_with_screen).2) = _columns (self p_with_screen)
     ∧ heap (exec c p_with_screen).2 = heap p_with_screen
     ∧ columns_of (exec c p_with_screen).2 = columns_of p_with_screen).
Proof.
  split; [|split]; intros c; (split; [reflexivity|]).
  - apply (success_touches_own_field c p_with_screen
             (exec c p_with_screen).2 PNone).
    reflexivity.
  - apply (success_touches_own_field c p_with_screen
             (exec c p_with_screen).2 (PTerm some_factor)).
    reflexivity.
  - apply (success_touches_own_field c p_with_screen
             (exec c p_with_screen).2 PNone).
    reflexivity.
Defined.

(** * Further properties of the methods *)

(** ** What each method computes on an initialised container *)

Lemma bind_run {A B} (m : M A) (k : A → M B) (σ : state) :
  (x ← m; k x) σ
  = match m σ with
    | (Return a, σ') => k a σ'
    | (Raise e, σ') => (Raise e, σ')
    end.
Proof. reflexivity. Qed.

Lemma add_run (σ : state) (l : loc) (cols : dict_contents)
    (t : term) (k : string) (ow : bool) :
  _columns (self σ) = Some l →
  heap σ !! l = Some cols →
  Pipeline.add (PTerm t) (PStr k) ow σ
  = if bool_decide (is_Some (cols !! k)) && negb ow
    then (Raise (KeyError [PStr ("Column '" +:+ k +:+ "' already exists.")]), σ)
    else (Return (), with_dict σ l (<[k := PTerm t]> cols)).
Proof.
  intros Hc Hl. unfold with_dict. run. rewrite Hc. simpl. rewrite Hl. simpl.
  destruct (cols !! k) as [v|] eqn:Hk.
  - rewrite bool_decide_eq_true_2 by done. destruct ow; simpl; [|done].
    rewrite Hc. simpl. rewrite Hl, Hk. simpl. rewrite Hc. simpl.
    rewrite lookup_insert_eq. simpl.
    by rewrite insert_insert_eq, insert_delete_eq.
  - rewrite bool_decide_eq_false_2 by (by intros [? ?]). simpl.
    rewrite Hc. simpl. by rewrite Hl.
Qed.

Lemma remove_run (σ : state) (l : loc) (cols : dict_contents) (k : string) :
  _columns (self σ) = Some l →
  heap σ !! l = Some cols →
  Pipeline.remove (PStr k) σ
  = match cols !! k with
    | Some v => (Return v, with_dict σ l (delete k cols))
    | None => (Raise (KeyError [PStr k]), σ)
    end.
Proof.
  intros Hc Hl. unfold with_dict. run. rewrite Hc. simpl. rewrite Hl.
  by destruct (cols !! k).
Qed.

Lemma set_screen_run (σ : state) (cur : option term) (f : term) (ow : bool) :
  _screen (self σ) = Some cur →
  term_kind_of f = KFilter →
  Pipeline.set_screen (PTerm f) ow σ
  = if Pipeline.is_not_None cur && negb ow
    then (Raise (ValueError [PStr Pipeline.set_screen_message]), σ)
    else (Return (), with_self σ (set_screen_slot (Some f) (self σ))).
Proof.
  intros Hs Hf. unfold with_self. run. rewrite Hf. simpl. rewrite Hs.
  by destruct (Pipeline.is_not_None cur && negb ow).
Qed.

Lemma to_graph_run {G : Type} (TermGraph : dict_contents → G)
    (σ : state) (l : loc) (cols : dict_contents) (scr : option term)
    (screen_name : string) (default_screen : pyval) :
  _columns (self σ) = Some l →
  heap σ !! l = Some cols →
  _screen (self σ) = Some scr →
  Pipeline.to_graph TermGraph screen_name default_screen σ
  = let projected := <[screen_name := match scr with
                                      | Some f => PTerm f
                                      | None => default_screen
                                      end]> cols in
    (Return (TermGraph projected),
     with_dict σ (fresh (dom (heap σ))) projected).
Proof.
  intros Hc Hl Hs. unfold with_dict. run.
  rewrite Hc. simpl. rewrite Hl. simpl. rewrite Hs. simpl.
  rewrite lookup_insert_eq. simpl. rewrite lookup_insert_eq.
  by rewrite insert_insert_eq.
Qed.

(** Writing back the contents a dict already has changes nothing. *)
Lemma with_dict_id (σ : state) (l : loc) (cols : dict_contents) :
  heap σ !! l = Some cols → with_dict σ l cols = σ.
Proof.
  intros Hl. destruct σ as [h o]. unfold with_dict. simpl in *.
  by rewrite insert_id.
Qed.

Lemma with_dict_twice (σ : state) (l : loc) (d d' : dict_contents) :
  with_dict (with_dict σ l d) l d' = with_dict σ l d'.
Proof. unfold with_dict. simpl. by rewrite insert_insert_eq. Qed.

Lemma initialised_inv (σ : state) :
  initialised σ →
  ∃ (n : string) (l : loc) (cols : dict_contents) (scr : option term),
    _name (self σ) = Some n ∧ _columns (self σ) = Some l
    ∧ heap σ !! l = Some cols ∧ _screen (self σ) = Some scr.
Proof.
  unfold initialised, columns_of.
  intros ([n Hn] & [cols Hc] & [scr Hs]).
  destruct (_columns (self σ)) as [l|] eqn:Hl; [|done].
  by exists n, l, cols, scr.
Qed.

Lemma column_eq (σ : state) (l : loc) (cols : dict_contents) (k : string) :
  _columns (self σ) = Some l → heap σ !! l = Some cols →
  column σ k = cols !! k.
Proof.
  intros Hc Hl. unfold column, columns_of. rewrite Hc. simpl. by rewrite Hl.
Qed.

Lemma initialised_sample : initialised p_with_screen.
Proof. repeat split; by eexists. Qed.

(** ** Adding a new column *)

(** X1: when [name] is not yet a column, [add(term, name)] returns whatever
    [overwrite] is: afterwards [name] is bound to [term], every other column
    is as before, there is exactly one column more, and the slots of the
    instance are untouched. *)
Theorem add_fresh_name_inserts
    (σ : state) (l : loc) (cols : dict_contents) (t : term) (name : string)
    (overwrite : bool) :
  _columns (self σ) = Some l →
  heap σ !! l = Some cols →
  cols !! name = None →
  ∃ (σ' : state) (cols' : dict_contents),
    Pipeline.add (PTerm t) (PStr name) overwrite σ = (Return (), σ')
    ∧ columns_of σ' = Some cols'
    ∧ cols' !! name = Some (PTerm t)
    ∧ (∀ k : string, k ≠ name → cols' !! k = cols !! k)
    ∧ size cols' = S (size cols)
    ∧ self σ' = self σ.
Proof.
  intros Hc Hl Hk.
  exists (with_dict σ l (<[name := PTerm t]> cols)), (<[name := PTerm t]> cols).
  split.
  { rewrite (add_run σ l cols) by done. rewrite Hk.
    by rewrite bool_decide_eq_false_2 by (by intros [? ?]). }
  split.
  { unfold columns_of. simpl. rewrite Hc. simpl. apply lookup_insert_eq. }
  split; [apply lookup_insert_eq|].
  split; [intros k Hne; by apply lookup_insert_ne|].
  split; [by apply map_size_insert_None|done].
Qed.

Lemma add_fresh_name_inserts_witness :
  _columns (self p_with_column) = Some 1%positive
  ∧ heap p_with_column !! 1%positive = Some sample_columns
  ∧ sample_columns !! "g" = None
  ∧ ∃ (σ' : state) (cols' : dict_contents),
      Pipeline.add (PTerm factor_gt_5) (PStr "g") false p_with_column
        = (Return (), σ')
      ∧ columns_of σ' = Some cols'
      ∧ cols' !! "g" = Some (PTerm factor_gt_5)
      ∧ (∀ k : string, k ≠ "g" → cols' !! k = sample_columns !! k)
      ∧ size cols' = S (size sample_columns)
      ∧ self σ' = self p_with_column.
Proof.
  split; [reflexivity|]. split; [reflexivity|]. split; [reflexivity|].
  apply (add_fresh_name_inserts p_with_column 1%positive sample_columns
           factor_gt_5 "g" false); reflexivity.
Defined.

(** ** When the methods return *)

(** X2: on an initialised container, [add(term, name, overwrite)] returns
    exactly when [term] is a term, [name] is a string, and [name] is not yet
    a column or [overwrite] is set. *)
Theorem add_returns_iff
    (σ : state) (term_arg name : pyval) (overwrite : bool) :
  initialised σ →
  (∃ σ' : state, Pipeline.add term_arg name overwrite σ = (Return (), σ'))
  ↔ ∃ (t : term) (k : string),
      term_arg = PTerm t ∧ name = PStr k
      ∧ (column σ k = None ∨ overwrite = true).
Proof.
  intros (n & l & cols & scr & Hn & Hc & Hl & Hs)%initialised_inv. split.
  - intros [σ' Hadd].
    destruct term_arg as [| | | |t]; try (by run).
    destruct name as [| |k| |]; try (by run).
    exists t, k. split; [done|]. split; [done|].
    rewrite (add_run σ l cols) in Hadd by done.
    rewrite (column_eq σ l cols) by done.
    destruct (cols !! k) as [v|]; [|by left].
    rewrite bool_decide_eq_true_2 in Hadd by done.
    destruct overwrite; [by right|done].
  - intros (t & k & -> & -> & Hok).
    rewrite (column_eq σ l cols) in Hok by done.
    rewrite (add_run σ l cols) by done.
    destruct Hok as [Hk | ->].
    + rewrite Hk. rewrite bool_decide_eq_false_2 by (by intros [? ?]).
      by eexists.
    + rewrite andb_false_r. by eexists.
Qed.

Lemma add_returns_iff_witness :
  initialised p_with_screen
  ∧ ((∃ σ' : state,
        Pipeline.add (PTerm some_other_factor) (PStr "f") true p_with_screen
        = (Return (), σ'))
     ↔ ∃ (t : term) (k : string),
         PTerm some_other_factor = PTerm t ∧ PStr "f" = PStr k
         ∧ (column p_with_screen k = None ∨ true = true)).
Proof.
  split; [apply initialised_sample|].
  apply (add_returns_iff p_with_screen (PTerm some_other_factor) (PStr "f") true).
  apply initialised_sample.
Defined.

(** X3: on an initialised container, [remove(name)] returns [v] exactly when
    [name] is a string that is a column bound to [v]. *)
Theorem remove_returns_iff (σ : state) (name v : pyval) :
  initialised σ →
  (∃ σ' : state, Pipeline.remove name σ = (Return v, σ'))
  ↔ ∃ k : string, name = PStr k ∧ column σ k = Some v.
Proof.
  intros (n & l & cols & scr & Hn & Hc & Hl & Hs)%initialised_inv. split.
  - intros [σ' Hrem].
    destruct name as [| |k| |]; try (by run).
    exists k. split; [done|].
    rewrite (remove_run σ l cols) in Hrem by done.
    rewrite (column_eq σ l cols) by done.
    destruct (cols !! k); by simplify_eq.
  - intros (k & -> & Hk).
    rewrite (column_eq σ l cols) in Hk by done.
    rewrite (remove_run σ l cols) by done. rewrite Hk. by eexists.
Qed.

Lemma remove_returns_iff_witness :
  initialised p_with_screen
  ∧ ((∃ σ' : state,
        Pipeline.remove (PStr "f") p_with_screen
        = (Return (PTerm some_factor), σ'))
     ↔ ∃ k : string,
         PStr "f" = PStr k ∧ column p_with_screen k = Some (PTerm some_factor)).
Proof.
  split; [apply initialised_sample|].
  apply (remove_returns_iff p_with_screen (PStr "f") (PTerm some_factor)).
  apply initialised_sample.
Defined.

(** X4: on an initialised container, [set_screen(screen, overwrite)] returns
    exactly when [screen] is a filter, and no screen is set yet or [overwrite]
    is set.  In particular a screen, once set, cannot be replaced by [None]
    or by a term that is not a filter. *)
Theorem set_screen_returns_iff
    (σ : state) (screen_arg : pyval) (overwrite : bool) :
  initialised σ →
  (∃ σ' : state, Pipeline.set_screen screen_arg overwrite σ = (Return (), σ'))
  ↔ ∃ f : term,
      screen_arg = PTerm f ∧ term_kind_of f = KFilter
      ∧ (_screen (self σ) = Some None ∨ overwrite = true).
Proof.
  intros (n & l & cols & scr & Hn & Hc & Hl & Hs)%initialised_inv. split.
  - intros [σ' Hset].
    destruct screen_arg as [| | | |f]; try (by run).
    destruct (decide (term_kind_of f = KFilter)) as [Hf|Hf].
    + exists f. split; [done|]. split; [done|].
      rewrite (set_screen_run σ scr) in Hset by done.
      destruct scr as [g|]; [|by left].
      destruct overwrite; [by right|done].
    + run. by rewrite decide_False in Hset.
  - intros (f & -> & Hf & Hok).
    rewrite (set_screen_run σ scr) by done.
    destruct Hok as [Hnone | ->].
    + rewrite Hs in Hnone. simplify_eq. by eexists.
    + rewrite andb_false_r. by eexists.
Qed.

Lemma set_screen_returns_iff_witness :
  initialised p_with_screen
  ∧ ((∃ σ' : state,
        Pipeline.set_screen (PTerm some_factor) true p_with_screen
        = (Return (), σ'))
     ↔ ∃ f : term,
         PTerm some_factor = PTerm f ∧ term_kind_of f = KFilter
         ∧ (_screen (self p_with_screen) = Some None ∨ true = true)).
Proof.
  split; [apply initialised_sample|].
  apply (set_screen_returns_iff p_with_screen (PTerm some_factor) true).
  apply initialised_sample.
Defined.

(** ** Round trips *)

(** X5: adding a new column and removing it again gives back the term that
    was added and leaves the container exactly as it was before the two
    calls. *)
Theorem add_then_remove_restores
    (σ : state) (l : loc) (cols : dict_contents) (t : term) (name : string)
    (overwrite : bool) :
  _columns (self σ) = Some l →
  heap σ !! l = Some cols →
  cols !! name = None →
  (Pipeline.add (PTerm t) (PStr name) overwrite;; Pipeline.remove (PStr name)) σ
  = (Return (PTerm t), σ).
Proof.
  intros Hc Hl Hk. rewrite bind_run, (add_run σ l cols) by done.
  rewrite Hk, bool_decide_eq_false_2 by (by intros [? ?]). simpl.
  rewrite (remove_run _ l (<[name := PTerm t]> cols));
    [|done|simpl; apply lookup_insert_eq].
  rewrite lookup_insert_eq, with_dict_twice, delete_insert_id by done.
  by rewrite with_dict_id.
Qed.

Lemma add_then_remove_restores_witness :
  _columns (self p_with_column) = Some 1%positive
  ∧ heap p_with_column !! 1%positive = Some sample_columns
  ∧ sample_columns !! "g" = None
  ∧ (Pipeline.add (PTerm factor_gt_5) (PStr "g") false;;
     Pipeline.remove (PStr "g")) p_with_column
    = (Return (PTerm factor_gt_5), p_with_column).
Proof.
  split; [reflexivity|]. split; [reflexivity|]. split; [reflexivity|].
  apply (add_then_remove_restores p_with_column 1%positive sample_columns
           factor_gt_5 "g" false); reflexivity.
Defined.

(** X6: removing a column and adding back what [remove] returned under the
    same name restores the container exactly, when the column was bound to a
    term.  When it was bound to something else (the constructor does not
    check the values of the dict it is given), [add] rejects the value and
    the column stays removed. *)
Theorem remove_then_add_back
    (σ : state) (l : loc) (cols : dict_contents) (v : pyval) (name : string)
    (overwrite : bool) :
  _columns (self σ) = Some l →
  heap σ !! l = Some cols →
  cols !! name = Some v →
  (removed ← Pipeline.remove (PStr name);
   Pipeline.add removed (PStr name) overwrite) σ
  = match v with
    | PTerm _ => (Return (), σ)
    | _ => (Raise (TypeError "add" "term"), with_dict σ l (delete name cols))
    end.
Proof.
  intros Hc Hl Hk. rewrite bind_run, (remove_run σ l cols) by done.
  rewrite Hk.
  destruct v as [| | | |t]; try (by run).
  rewrite (add_run _ l (delete name cols));
    [|done|simpl; apply lookup_insert_eq].
  rewrite lookup_delete_eq.
  rewrite bool_decide_eq_false_2 by (by intros [? ?]). simpl.
  rewrite with_dict_twice, insert_delete_id by done.
  by rewrite with_dict_id.
Qed.

Lemma remove_then_add_back_witness :
  _columns (self p_with_column) = Some 1%positive
  ∧ heap p_with_column !! 1%positive = Some sample_columns
  ∧ sample_columns !! "f" = Some (PTerm some_factor)
  ∧ (removed ← Pipeline.remove (PStr "f");
     Pipeline.add removed (PStr "f") false) p_with_column
    = (Return (), p_with_column).
Proof.
  split; [reflexivity|]. split; [reflexivity|]. split; [reflexivity|].
  apply (remove_then_add_back p_with_column 1%positive sample_columns
           (PTerm some_factor) "f" false); reflexivity.
Defined.

(** X7: removing a column twice: the first call returns the term, the second
    raises [KeyError] with the name as its only argument, and the container
    is left without the column. *)
Theorem remove_twice_raises
    (σ : state) (l : loc) (cols : dict_contents) (v : pyval) (name : string) :
  _columns (self σ) = Some l →
  heap σ !! l = Some cols →
  cols !! name = Some v →
  Pipeline.remove (PStr name) σ = (Return v, with_dict σ l (delete name cols))
  ∧ (Pipeline.remove (PStr name);; Pipeline.remove (PStr name)) σ
    = (Raise (KeyError [PStr name]), with_dict σ l (delete name cols))
  ∧ column (with_dict σ l (delete name cols)) name = None.
Proof.
  intros Hc Hl Hk.
  assert (Hrem : Pipeline.remove (PStr name) σ
                 = (Return v, with_dict σ l (delete name cols))).
  { rewrite (remove_run σ l cols) by done. by rewrite Hk. }
  split; [done|]. split.
  - rewrite bind_run, Hrem.
    rewrite (remove_run _ l (delete name cols));
      [|done|simpl; apply lookup_insert_eq].
    by rewrite lookup_delete_eq.
  - rewrite (column_eq _ l (delete name cols));
      [|done|simpl; apply lookup_insert_eq].
    apply lookup_delete_eq.
Qed.

Lemma remove_twice_raises_witness :
  _columns (self p_with_column) = Some 1%positive
  ∧ heap p_with_column !! 1%positive = Some sample_columns
  ∧ sample_columns !! "f" = Some (PTerm some_factor)
  ∧ Pipeline.remove (PStr "f") p_with_column
    = (Return (PTerm some_factor),
       with_dict p_with_column 1%positive (delete "f" sample_columns))
  ∧ (Pipeline.remove (PStr "f");; Pipeline.remove (PStr "f")) p_with_column
    = (Raise (KeyError [PStr "f"]),
       with_dict p_with_column 1%positive (delete "f" sample_columns))
  ∧ column (with_dict p_with_column 1%positive (delete "f" sample_columns)) "f"
    = None.
Proof.
  split; [reflexivity|]. split; [reflexivity|]. split; [reflexivity|].
  apply (remove_twice_raises p_with_column 1%positive sample_columns
           (PTerm some_factor) "f"); reflexivity.
Defined.

(** ** Composing calls *)

(** X8: two [add] calls under different names commute: when the two calls
    return in one order, they return in the other order too and leave the
    same container. *)
Theorem add_distinct_names_commute
    (σ σ' : state) (t1 t2 : term) (n1 n2 : string) (o1 o2 : bool) :
  initialised σ →
  n1 ≠ n2 →
  (Pipeline.add (PTerm t1) (PStr n1) o1;; Pipeline.add (PTerm t2) (PStr n2) o2) σ
  = (Return (), σ') →
  (Pipeline.add (PTerm t2) (PStr n2) o2;; Pipeline.add (PTerm t1) (PStr n1) o1) σ
  = (Return (), σ').
Proof.
  intros (n & l & cols & scr & Hn & Hc & Hl & Hs)%initialised_inv Hne.
  rewrite !bind_run, !(add_run σ l cols) by done.
  destruct (bool_decide (is_Some (cols !! n1)) && negb o1) eqn:H1; [done|].
  rewrite (add_run _ l (<[n1 := PTerm t1]> cols));
    [|done|simpl; apply lookup_insert_eq].
  rewrite lookup_insert_ne by done.
  destruct (bool_decide (is_Some (cols !! n2)) && negb o2) eqn:H2; [done|].
  intros Heq.
  rewrite (add_run _ l (<[n2 := PTerm t2]> cols));
    [|done|simpl; apply lookup_insert_eq].
  rewrite lookup_insert_ne by done. rewrite H1.
  rewrite with_dict_twice in *.
  by rewrite insert_insert_ne.
Qed.

Lemma add_distinct_names_commute_witness :
  initialised p_empty
  ∧ "f" ≠ "g"
  ∧ (Pipeline.add (PTerm some_factor) (PStr "f") false;;
     Pipeline.add (PTerm factor_gt_5) (PStr "g") false) p_empty
    = (Return (),
       with_dict p_empty 1%positive
         (<["g" := PTerm factor_gt_5]> (<["f" := PTerm some_factor]> ∅)))
  ∧ (Pipeline.add (PTerm factor_gt_5) (PStr "g") false;;
     Pipeline.add (PTerm some_factor) (PStr "f") false) p_empty
    = (Return (),
       with_dict p_empty 1%positive
         (<["g" := PTerm factor_gt_5]> (<["f" := PTerm some_factor]> ∅))).
Proof.
  assert (Hi : initialised p_empty) by (repeat split; by eexists).
  split; [exact Hi|]. split; [discriminate|]. split; [reflexivity|].
  apply (add_distinct_names_commute p_empty _ some_factor factor_gt_5
           "f" "g" false false Hi); [discriminate | reflexivity].
Defined.

(** X9: with [overwrite=True] the last [set_screen] wins: setting a filter
    [f] and then a filter [g] is the same as setting [g] at once, whatever
    the screen was before. *)
Theorem set_screen_overwrite_last_wins (σ : state) (f g : term) :
  initialised σ →
  term_kind_of f = KFilter →
  term_kind_of g = KFilter →
  (Pipeline.set_screen (PTerm f) true;; Pipeline.set_screen (PTerm g) true) σ
  = Pipeline.set_screen (PTerm g) true σ
  ∧ Pipeline.set_screen (PTerm g) true σ
    = (Return (), with_self σ (set_screen_slot (Some g) (self σ))).
Proof.
  intros (n & l & cols & scr & Hn & Hc & Hl & Hs)%initialised_inv Hf Hg.
  rewrite bind_run, !(set_screen_run σ scr) by done.
  rewrite !andb_false_r.
  by rewrite (set_screen_run _ (Some f)) by done.
Qed.

Lemma set_screen_overwrite_last_wins_witness :
  initialised p_with_screen
  ∧ term_kind_of factor_gt_5 = KFilter
  ∧ term_kind_of some_other_filter = KFilter
  ∧ (Pipeline.set_screen (PTerm factor_gt_5) true;;
     Pipeline.set_screen (PTerm some_other_filter) true) p_with_screen
    = Pipeline.set_screen (PTerm some_other_filter) true p_with_screen
  ∧ Pipeline.set_screen (PTerm some_other_filter) true p_with_screen
    = (Return (),
       with_self p_with_screen
         (set_screen_slot (Some some_other_filter) (self p_with_screen))).
Proof.
  split; [apply initialised_sample|]. split; [reflexivity|].
  split; [reflexivity|].
  apply (set_screen_overwrite_last_wins p_with_screen factor_gt_5
           some_other_filter); [apply initialised_sample | reflexivity..].
Defined.

(** ** What one action does to the container *)

(** A call of a mutating method does one of four things to the state:
    nothing, one assignment of a term in the container's dict, one deletion
    from it, or one assignment of a filter to the screen slot. *)
Lemma exec_effects (c : call) (σ : state) :
  (exec c σ).2 = σ
  ∨ (∃ (l : loc) (cols : dict_contents) (t : term) (k : string),
       _columns (self σ) = Some l ∧ heap σ !! l = Some cols
       ∧ (exec c σ).2 = with_dict σ l (<[k := PTerm t]> cols))
  ∨ (∃ (l : loc) (cols : dict_contents) (k : string),
       _columns (self σ) = Some l ∧ heap σ !! l = Some cols
       ∧ (exec c σ).2 = with_dict σ l (delete k cols))
  ∨ (∃ f : term,
       term_kind_of f = KFilter
       ∧ (exec c σ).2 = with_self σ (set_screen_slot (Some f) (self σ))).
Proof.
  destruct c as [tv nv ow | nv | sv ow].
  - destruct tv as [| | | |t]; try (by left).
    destruct nv as [| |k| |]; try (by left).
    destruct (_columns (self σ)) as [l|] eqn:Hc;
      [|left; run; by rewrite Hc].
    destruct (heap σ !! l) as [cols|] eqn:Hl;
      [|left; run; rewrite Hc; simpl; by rewrite Hl].
    unfold exec. rewrite bind_run, (add_run σ l cols) by done.
    destruct (bool_decide (is_Some (cols !! k)) && negb ow); [by left|].
    right. left. by exists l, cols, t, k.
  - destruct nv as [| |k| |]; try (by left).
    destruct (_columns (self σ)) as [l|] eqn:Hc;
      [|left; run; by rewrite Hc].
    destruct (heap σ !! l) as [cols|] eqn:Hl;
      [|left; run; rewrite Hc; simpl; by rewrite Hl].
    unfold exec. rewrite (remove_run σ l cols) by done.
    destruct (cols !! k); [|by left].
    right. right. left. by exists l, cols, k.
  - destruct sv as [| | | |f]; try (by left).
    destruct (decide (term_kind_of f = KFilter)) as [Hf|Hf];
      [|left; run; by rewrite decide_False].
    destruct (_screen (self σ)) as [cur|] eqn:Hs;
      [|left; run; rewrite Hf; simpl; by rewrite Hs].
    unfold exec. rewrite bind_run, (set_screen_run σ cur) by done.
    destruct (Pipeline.is_not_None cur && negb ow); [by left|].
    right. right. right. by exists f.
Qed.

(** The state [to_graph] leaves: the one before, with at most one new dict. *)
Lemma to_graph_effects {G : Type} (TermGraph : dict_contents → G)
    (σ : state) (screen_name : string) (default_screen : pyval) :
  let σ' := (Pipeline.to_graph TermGraph screen_name default_screen σ).2 in
  self σ' = self σ
  ∧ columns_of σ' = columns_of σ
  ∧ ∀ (l : loc) (d : dict_contents), heap σ !! l = Some d → heap σ' !! l = Some d.
Proof.
  intros σ'.
  destruct (to_graph_allocates_only TermGraph σ screen_name default_screen)
    as [Heq | (d' & [cols Hcols] & Heq)]; fold σ' in Heq; rewrite Heq; [done|].
  repeat split; [|intros l d; apply alloc_frame].
  rewrite Hcols. unfold columns_of in *. simpl.
  destruct (_columns (self σ)) as [l|]; simpl in *; [|done].
  by apply alloc_frame.
Qed.

Lemma columns_of_with_dict (σ : state) (l : loc) (d : dict_contents) :
  _columns (self σ) = Some l → columns_of (with_dict σ l d) = Some d.
Proof.
  intros Hc. unfold columns_of. simpl. rewrite Hc. simpl.
  apply lookup_insert_eq.
Qed.

Lemma step_keeps_slots (a : action) (σ : state) :
  _name (self (step a σ)) = _name (self σ)
  ∧ _columns (self (step a σ)) = _columns (self σ).
Proof.
  destruct a as [c | sn ds]; simpl.
  - destruct (exec_effects c σ)
      as [-> | [(l & cols & t & k & _ & _ & ->)
             | [(l & cols & k & _ & _ & ->) | (f & _ & ->)]]]; done.
  - destruct (to_graph_effects (λ d, d) σ sn ds) as (-> & _). done.
Qed.

Lemma step_initialised (a : action) (σ : state) :
  initialised σ → initialised (step a σ).
Proof.
  unfold initialised. intros (Hn & Hc & Hs).
  destruct a as [c | sn ds]; simpl.
  - destruct (exec_effects c σ)
      as [-> | [(l & cols & t & k & Hl & _ & ->)
             | [(l & cols & k & Hl & _ & ->) | (f & _ & ->)]]];
      try done; repeat split; try done;
      rewrite columns_of_with_dict by done; done.
  - destruct (to_graph_effects (λ d, d) σ sn ds) as (-> & -> & _). done.
Qed.

Lemma step_screen_is_filter (a : action) (σ : state) :
  screen_is_filter σ → screen_is_filter (step a σ).
Proof.
  unfold screen_is_filter. intros Hinv.
  destruct a as [c | sn ds]; simpl.
  - destruct (exec_effects c σ)
      as [-> | [(l & cols & t & k & _ & _ & ->)
             | [(l & cols & k & _ & _ & ->) | (f & Hf & ->)]]]; try done.
    simpl. intros f' ?. by simplify_eq.
  - destruct (to_graph_effects (λ d, d) σ sn ds) as (-> & _). done.
Qed.

Lemma step_screen_stays_set (a : action) (σ : state) :
  (∃ f : term, _screen (self σ) = Some (Some f)) →
  ∃ g : term, _screen (self (step a σ)) = Some (Some g).
Proof.
  intros Hs.
  destruct a as [c | sn ds]; simpl.
  - destruct (exec_effects c σ)
      as [-> | [(l & cols & t & k & _ & _ & ->)
             | [(l & cols & k & _ & _ & ->) | (f & Hf & ->)]]]; try done.
    by eexists.
  - destruct (to_graph_effects (λ d, d) σ sn ds) as (-> & _). done.
Qed.

Lemma step_columns_are_terms (a : action) (σ : state) :
  columns_are_terms σ → columns_are_terms (step a σ).
Proof.
  unfold columns_are_terms. intros Hinv.
  destruct a as [c | sn ds]; simpl.
  - destruct (exec_effects c σ)
      as [-> | [(l & cols & t & k & Hc & Hl & ->)
             | [(l & cols & k & Hc & Hl & ->) | (f & Hf & ->)]]]; try done.
    + intros d k' v. rewrite columns_of_with_dict by done.
      intros ? Hk. simplify_eq.
      destruct (decide (k = k')) as [->|Hne].
      * rewrite lookup_insert_eq in Hk. simplify_eq. by eexists.
      * rewrite lookup_insert_ne in Hk by done.
        eapply (Hinv cols); [|done]. unfold columns_of. rewrite Hc. done.
    + intros d k' v. rewrite columns_of_with_dict by done.
      intros ? Hk. simplify_eq.
      apply lookup_delete_Some in Hk as [_ Hk].
      eapply (Hinv cols); [|done]. unfold columns_of. rewrite Hc. done.
  - destruct (to_graph_effects (λ d, d) σ sn ds) as (_ & -> & _). done.
Qed.

(** ** Invariants over histories *)

Lemma history_cons (a : action) (acts : list action) (σ : state) :
  history (a :: acts) σ = history acts (step a σ).
Proof. reflexivity. Qed.

Lemma history_invariant (P : state → Prop) (acts : list action) (σ : state) :
  (∀ (a : action) (σ0 : state), P σ0 → P (step a σ0)) →
  P σ → P (history acts σ).
Proof.
  intros Hstep. revert σ.
  induction acts as [|a acts IH]; intros σ HP; [done|].
  rewrite history_cons. apply IH. by apply Hstep.
Qed.

Lemma new_screen_is_filter (name columns screen : pyval)
    (h : gmap loc dict_contents) (inst : instance) (σ : state) :
  Pipeline.new name columns screen h = (Return inst, σ) → screen_is_filter σ.
Proof.
  unfold screen_is_filter. intros Hnew. run.
  repeat (case_match; simplify_eq/=; try done); intros f ?; by simplify_eq.
Qed.

Lemma new_default_columns (name screen : pyval)
    (h : gmap loc dict_contents) (inst : instance) (σ : state) :
  Pipeline.new name PNone screen h = (Return inst, σ) → columns_of σ = Some ∅.
Proof.
  unfold columns_of. intros Hnew. run.
  repeat (case_match; simplify_eq/=; try done); apply lookup_insert_eq.
Qed.

Lemma getattr_returns {A} (attr : string) (slot : instance → option A)
    (σ : state) (v : A) :
  getattr attr slot σ = (Return v, σ) ↔ slot (self σ) = Some v.
Proof.
  unfold getattr. destruct (slot (self σ)); split; intros ?; by simplify_eq.
Qed.

(** X10: whatever is done with a container (calls of [add], [remove],
    [set_screen] that return or raise, compilations with [to_graph]), its
    [name] property keeps returning the same string and its [columns]
    property the same dict object: a reference read from [columns] once is
    the container's live mapping from then on. *)
Theorem history_keeps_name_and_dict
    (acts : list action) (σ : state) (n : string) (l : loc) :
  Pipeline.name σ = (Return n, σ) →
  Pipeline.columns σ = (Return l, σ) →
  Pipeline.name (history acts σ) = (Return n, history acts σ)
  ∧ Pipeline.columns (history acts σ) = (Return l, history acts σ).
Proof.
  unfold Pipeline.name, Pipeline.columns. rewrite !getattr_returns.
  intros Hn Hc.
  apply (history_invariant
           (λ σ0, _name (self σ0) = Some n ∧ _columns (self σ0) = Some l));
    [|done].
  intros a σ0 [? ?]. destruct (step_keeps_slots a σ0) as [-> ->]. done.
Qed.

Lemma history_keeps_name_and_dict_witness :
  let acts := [ Mutate (Add (PTerm factor_gt_5) (PStr "g") false);
                ToGraph "screen" PNone;
                Mutate (Remove (PStr "f"));
                Mutate (SetScreen (PTerm some_other_filter) false) ] in
  Pipeline.name p_with_screen = (Return "test", p_with_screen)
  ∧ Pipeline.columns p_with_screen = (Return 1%positive, p_with_screen)
  ∧ Pipeline.name (history acts p_with_screen)
    = (Return "test", history acts p_with_screen)
  ∧ Pipeline.columns (history acts p_with_screen)
    = (Return 1%positive, history acts p_with_screen).
Proof.
  intros acts. split; [reflexivity|]. split; [reflexivity|].
  apply (history_keeps_name_and_dict acts p_with_screen "test" 1%positive);
    reflexivity.
Defined.

(** X11: the screen of a container is never anything but [None] or a
    filter: this holds when the constructor returns, whatever its arguments,
    and after anything done with the container since. *)
Theorem screen_is_always_a_filter
    (name columns screen : pyval) (h : gmap loc dict_contents)
    (inst : instance) (σ : state) (acts : list action) :
  Pipeline.new name columns screen h = (Return inst, σ) →
  screen_is_filter (history acts σ).
Proof.
  intros Hnew. apply history_invariant.
  - apply step_screen_is_filter.
  - by eapply new_screen_is_filter.
Qed.

Lemma screen_is_always_a_filter_witness :
  let σ := (Pipeline.new (PStr "test") PNone (PTerm some_filter) ∅).2 in
  let acts := [ Mutate (SetScreen (PTerm some_factor) true);
                Mutate (SetScreen (PTerm some_other_filter) true);
                ToGraph "screen" PNone ] in
  Pipeline.new (PStr "test") PNone (PTerm some_filter) ∅ = (Return (self σ), σ)
  ∧ screen_is_filter (history acts σ).
Proof.
  intros σ acts. split; [reflexivity|].
  apply (screen_is_always_a_filter (PStr "test") PNone (PTerm some_filter) ∅
           (self σ) σ acts).
  reflexivity.
Defined.

(** X12: in a container built without a columns argument every column is
    bound to a term, after anything done with the container: [add] is the
    only way in and it checks its argument. *)
Theorem columns_added_are_terms
    (name screen : pyval) (h : gmap loc dict_contents)
    (inst : instance) (σ : state) (acts : list action) :
  Pipeline.new name PNone screen h = (Return inst, σ) →
  columns_are_terms (history acts σ).
Proof.
  intros Hnew. apply history_invariant.
  - apply step_columns_are_terms.
  - intros d k v. rewrite (new_default_columns _ _ _ _ _ Hnew).
    intros ? Hk. by simplify_eq.
Qed.

Lemma columns_added_are_terms_witness :
  let σ := (Pipeline.new (PStr "test") PNone PNone ∅).2 in
  let acts := [ Mutate (Add (PTerm some_factor) (PStr "f") false);
                Mutate (Add (PInt 1) (PStr "g") true);
                Mutate (Add (PTerm factor_gt_5) (PStr "f") true) ] in
  Pipeline.new (PStr "test") PNone PNone ∅ = (Return (self σ), σ)
  ∧ columns_are_terms (history acts σ).
Proof.
  intros σ acts. split; [reflexivity|].
  apply (columns_added_are_terms (PStr "test") PNone ∅ (self σ) σ acts).
  reflexivity.
Defined.

(** X13: no method clears the screen: once a container has a screen it has
    one after anything done with it ([set_screen] accepts only a filter,
    never [None]). *)
Theorem screen_is_never_cleared
    (acts : list action) (σ : state) (f : term) :
  Pipeline.screen σ = (Return (Some f), σ) →
  ∃ g : term,
    Pipeline.screen (history acts σ) = (Return (Some g), history acts σ).
Proof.
  unfold Pipeline.screen. rewrite getattr_returns. intros Hs.
  destruct (history_invariant
              (λ σ0, ∃ g : term, _screen (self σ0) = Some (Some g)) acts σ)
    as [g Hg]; [apply step_screen_stays_set|by exists f|].
  exists g. by apply getattr_returns.
Qed.

Lemma screen_is_never_cleared_witness :
  let acts := [ Mutate (SetScreen PNone true);
                Mutate (SetScreen (PTerm some_other_filter) true);
                Mutate (Remove (PStr "f")) ] in
  Pipeline.screen p_with_screen = (Return (Some some_filter), p_with_screen)
  ∧ ∃ g : term,
      Pipeline.screen (history acts p_with_screen)
      = (Return (Some g), history acts p_with_screen).
Proof.
  intros acts. split; [reflexivity|].
  apply (screen_is_never_cleared acts p_with_screen some_filter).
  reflexivity.
Defined.

(** ** The dict behind the container *)

(** X14: the constructor keeps the dict it is given instead of copying it:
    a column added through the container afterwards is written into the
    caller's own dict, and no other dict is created or changed. *)
Theorem constructor_shares_dict
    (n : string) (l : loc) (h : gmap loc dict_contents) (cols : dict_contents)
    (t : term) (k : string) (overwrite : bool) :
  h !! l = Some cols →
  cols !! k = None ∨ overwrite = true →
  (Pipeline.__init__ (PStr n) (PDict l) PNone;;
   Pipeline.add (PTerm t) (PStr k) overwrite) {| heap := h; self := blank |}
  = (Return (),
     {| heap := <[l := <[k := PTerm t]> cols]> h;
        self := {| _name := Some n; _columns := Some l;
                   _screen := Some None |} |}).
Proof.
  intros Hl Hok. rewrite bind_run.
  change (Pipeline.__init__ (PStr n) (PDict l) PNone {| heap := h; self := blank |})
    with (Return (), {| heap := h;
                        self := {| _name := Some n; _columns := Some l;
                                   _screen := Some None |} |}).
  cbv beta iota. rewrite (add_run _ l cols) by done.
  destruct Hok as [Hk | ->].
  - by rewrite Hk, bool_decide_eq_false_2 by (by intros [? ?]).
  - by rewrite andb_false_r.
Qed.

Lemma constructor_shares_dict_witness :
  ({[ 1%positive := sample_columns ]} : gmap loc dict_contents) !! 1%positive
  = Some sample_columns
  ∧ (sample_columns !! "g" = None ∨ false = true)
  ∧ (Pipeline.__init__ (PStr "test") (PDict 1%positive) PNone;;
     Pipeline.add (PTerm factor_gt_5) (PStr "g") false)
      {| heap := {[ 1%positive := sample_columns ]}; self := blank |}
    = (Return (),
       {| heap := <[1%positive := <["g" := PTerm factor_gt_5]> sample_columns]>
                    {[ 1%positive := sample_columns ]};
          self := {| _name := Some "test"; _columns := Some 1%positive;
                     _screen := Some None |} |}).
Proof.
  split; [reflexivity|]. split; [left; reflexivity|].
  apply (constructor_shares_dict "test" 1%positive
           {[ 1%positive := sample_columns ]} sample_columns factor_gt_5 "g"
           false); [reflexivity | left; reflexivity].
Defined.

(** X15: compiling twice gives the same artifact twice: on an initialised
    container two calls of [to_graph] with the same arguments hand equal
    mappings to the graph compiler, each in a dict of its own. *)
Theorem to_graph_repeatable {G : Type} (TermGraph : dict_contents → G)
    (σ : state) (screen_name : string) (default_screen : pyval) :
  initialised σ →
  ∃ (projected : dict_contents) (l1 l2 : loc) (σ1 σ2 : state),
    Pipeline.to_graph TermGraph screen_name default_screen σ
      = (Return (TermGraph projected), σ1)
    ∧ Pipeline.to_graph TermGraph screen_name default_screen σ1
      = (Return (TermGraph projected), σ2)
    ∧ l1 ≠ l2
    ∧ heap σ !! l1 = None
    ∧ heap σ1 !! l2 = None
    ∧ heap σ2 !! l1 = Some projected
    ∧ heap σ2 !! l2 = Some projected.
Proof.
  intros (n & l & cols & scr & Hn & Hc & Hl & Hs)%initialised_inv.
  set (projected := <[screen_name := match scr with
                                     | Some f => PTerm f
                                     | None => default_screen
                                     end]> cols).
  set (l1 := fresh (dom (heap σ))).
  set (σ1 := with_dict σ l1 projected).
  set (l2 := fresh (dom (heap σ1))).
  assert (H1 : heap σ1 !! l1 = Some projected) by apply lookup_insert_eq.
  assert (Hne : l1 ≠ l2) by (by eapply fresh_loc_ne).
  exists projected, l1, l2, σ1, (with_dict σ1 l2 projected).
  split; [by rewrite (to_graph_run TermGraph σ l cols scr)|].
  split.
  { rewrite (to_graph_run TermGraph σ1 l cols scr); [done|done| |done].
    by apply alloc_frame. }
  split; [done|].
  split; [apply fresh_loc_not_in|].
  split; [apply fresh_loc_not_in|].
  split; [|apply lookup_insert_eq].
  simpl. rewrite lookup_insert_ne by done. apply lookup_insert_eq.
Qed.

Lemma to_graph_repeatable_witness :
  initialised p_with_screen
  ∧ ∃ (projected : dict_contents) (l1 l2 : loc) (σ1 σ2 : state),
      Pipeline.to_graph size "screen" PNone p_with_screen
        = (Return (size projected), σ1)
      ∧ Pipeline.to_graph size "screen" PNone σ1
        = (Return (size projected), σ2)
      ∧ l1 ≠ l2
      ∧ heap p_with_screen !! l1 = None
      ∧ heap σ1 !! l2 = None
      ∧ heap σ2 !! l1 = Some projected
      ∧ heap σ2 !! l2 = Some projected.
Proof.
  split; [apply initialised_sample|].
  apply (to_graph_repeatable size p_with_screen "screen" PNone).
  apply initialised_sample.
Defined.

(** X16: the mapping [to_graph] hands to the graph compiler is a snapshot:
    nothing done with the container afterwards (columns added, removed or
    overwritten, screens set, further compilations) changes it. *)
Theorem to_graph_copy_is_a_snapshot {G : Type} (TermGraph : dict_contents → G)
    (σ : state) (screen_name : string) (default_screen : pyval)
    (acts : list action) :
  initialised σ →
  ∃ (projected : dict_contents) (l' : loc) (σ1 : state),
    Pipeline.to_graph TermGraph screen_name default_screen σ
      = (Return (TermGraph projected), σ1)
    ∧ heap σ !! l' = None
    ∧ heap σ1 !! l' = Some projected
    ∧ heap (history acts σ1) !! l' = Some projected.
Proof.
  intros (n & l & cols & scr & Hn & Hc & Hl & Hs)%initialised_inv.
  set (projected := <[screen_name := match scr with
                                     | Some f => PTerm f
                                     | None => default_screen
                                     end]> cols).
  set (l' := fresh (dom (heap σ))).
  set (σ1 := with_dict σ l' projected).
  assert (Hne : l ≠ l') by (by eapply fresh_loc_ne).
  exists projected, l', σ1.
  split; [by rewrite (to_graph_run TermGraph σ l cols scr)|].
  split; [apply fresh_loc_not_in|].
  split; [apply lookup_insert_eq|].
  cut (_columns (self (history acts σ1)) = Some l
       ∧ heap (history acts σ1) !! l' = Some projected); [by intros [_ ?]|].
  apply (history_invariant
           (λ σ0, _columns (self σ0) = Some l ∧ heap σ0 !! l' = Some projected)).
  - intros a σ0 [Hc0 Hl0]. split.
    { destruct (step_keeps_slots a σ0) as [_ ->]. done. }
    destruct a as [c | sn ds]; simpl.
    + destruct (exec_effects c σ0)
        as [-> | [(l0 & cols0 & t & k & Hc1 & _ & ->)
               | [(l0 & cols0 & k & Hc1 & _ & ->) | (f & _ & ->)]]];
        try done; simpl; rewrite lookup_insert_ne; congruence.
    + by apply (to_graph_effects (λ d, d) σ0 sn ds).
  - split; [done|apply lookup_insert_eq].
Qed.

Lemma to_graph_copy_is_a_snapshot_witness :
  let acts := [ Mutate (Add (PTerm some_other_factor) (PStr "f") true);
                Mutate (Remove (PStr "f"));
                ToGraph "f" PNone ] in
  initialised p_with_screen
  ∧ ∃ (projected : dict_contents) (l' : loc) (σ1 : state),
      Pipeline.to_graph size "screen" PNone p_with_screen
        = (Return (size projected), σ1)
      ∧ heap p_with_screen !! l' = None
      ∧ heap σ1 !! l' = Some projected
      ∧ heap (history acts σ1) !! l' = Some projected.
Proof.
  intros acts. split; [apply initialised_sample|].
  apply (to_graph_copy_is_a_snapshot size p_with_screen "screen" PNone acts).
  apply initialised_sample.
Defined.

(** ** The constructor *)

(** X17: the constructor returns exactly when the name is a string, the
    columns argument is [None] or a dict, and the screen argument is [None]
    or a filter.  The instance then holds the name, the dict given (or a new
    empty dict when none was given, the only change to the store), and the
    screen given. *)
Theorem new_returns_iff
    (name columns screen : pyval) (h : gmap loc dict_contents)
    (inst : instance) (σ : state) :
  Pipeline.new name columns screen h = (Return inst, σ)
  ↔ ∃ (n : string) (c : option loc) (s : option term),
      name = PStr n
      ∧ columns = from_option PDict PNone c
      ∧ screen = from_option PTerm PNone s
      ∧ (∀ f : term, s = Some f → term_kind_of f = KFilter)
      ∧ inst = {| _name := Some n;
                  _columns := Some (default (fresh (dom h)) c);
                  _screen := Some s |}
      ∧ σ = {| heap := match c with
                       | Some _ => h
                       | None => <[fresh (dom h) := ∅]> h
                       end;
               self := inst |}.
Proof.
  split.
  - intros Hnew. run.
    destruct name as [| |n| |]; simpl in *; try done.
    destruct columns as [| | |l|]; simpl in *; try done;
      destruct screen as [| | | |f]; simpl in *; try done;
      try (destruct (decide (term_kind_of f = KFilter)) as [Hf|Hf];
           simpl in *; [|done]);
      simplify_eq.
    + exists n, None, None. by repeat split.
    + exists n, None, (Some f). repeat split; try done.
      intros ? ?. by simplify_eq.
    + exists n, (Some l), None. by repeat split.
    + exists n, (Some l), (Some f). repeat split; try done.
      intros ? ?. by simplify_eq.
  - intros (n & c & s & -> & -> & -> & Hf & -> & ->).
    destruct c as [l|], s as [f|]; run; try done;
      by rewrite decide_True by (by apply Hf).
Qed.

(** ** The exceptions of each method *)

(** X18: on an initialised container each method raises only its own
    exceptions: [add] a [TypeError] or the [KeyError] that names the column,
    [remove] a [TypeError] or the [KeyError] whose argument is the name,
    [set_screen] a [TypeError] or the [ValueError] of the conflict. *)
Theorem exceptions_raised
    (c : call) (σ σ' : state) (e : exn) :
  initialised σ →
  exec c σ = (Raise e, σ') →
  match c with
  | Add _ name _ =>
      (∃ argname : string, e = TypeError "add" argname)
      ∨ ∃ k : string,
          name = PStr k ∧ is_Some (column σ k)
          ∧ e = KeyError [PStr ("Column '" +:+ k +:+ "' already exists.")]
  | Remove name =>
      e = TypeError "remove" "name"
      ∨ ∃ k : string,
          name = PStr k ∧ column σ k = None ∧ e = KeyError [PStr k]
  | SetScreen _ _ =>
      e = TypeError "set_screen" "screen"
      ∨ (is_Some (_screen (self σ) ≫= id)
         ∧ e = ValueError [PStr Pipeline.set_screen_message])
  end.
Proof.
  intros (n & l & cols & scr & Hn & Hc & Hl & Hs)%initialised_inv Hex.
  destruct c as [tv nv ow | nv | sv ow].
  - destruct tv as [| | | |t]; try (run; simplify_eq; left; by eexists).
    destruct nv as [| |k| |]; try (run; simplify_eq; left; by eexists).
    right. exists k. split; [done|]. unfold exec in Hex.
    rewrite bind_run, (add_run σ l cols), (column_eq σ l cols) in * by done.
    destruct (cols !! k) as [v|]; [|done].
    rewrite bool_decide_eq_true_2 in Hex by done.
    destruct ow; simpl in Hex; [done|]. by simplify_eq.
  - destruct nv as [| |k| |]; try (run; simplify_eq; by left).
    right. exists k. split; [done|]. unfold exec in Hex.
    rewrite (remove_run σ l cols), (column_eq σ l cols) in * by done.
    destruct (cols !! k); by simplify_eq.
  - destruct sv as [| | | |f]; try (run; simplify_eq; by left).
    destruct (decide (term_kind_of f = KFilter)) as [Hf|Hf];
      [|run; rewrite decide_False in Hex by done; simplify_eq; by left].
    right. unfold exec in Hex.
    rewrite bind_run, (set_screen_run σ scr) in Hex by done.
    rewrite Hs. simpl. destruct scr as [g|]; [|done].
    destruct ow; simpl in Hex; [done|]. by simplify_eq.
Qed.

Lemma exceptions_raised_witness :
  initialised p_with_screen
  ∧ (let c := Add (PTerm some_other_factor) (PStr "f") false in
     let e := KeyError [PStr "Column 'f' already exists."] in
     exec c p_with_screen = (Raise e, (exec c p_with_screen).2)
     ∧ ((∃ argname : string, e = TypeError "add" argname)
        ∨ ∃ k : string,
            PStr "f" = PStr k ∧ is_Some (column p_with_screen k)
            ∧ e = KeyError [PStr ("Column '" +:+ k +:+ "' already exists.")]))
  ∧ (let c := Remove (PInt 1) in
     let e := TypeError "remove" "name" in
     exec c p_with_screen = (Raise e, (exec c p_with_screen).2)
     ∧ (e = TypeError "remove" "name"
        ∨ ∃ k : string,
            PInt 1 = PStr k ∧ column p_with_screen k = None
            ∧ e = KeyError [PStr k]))
  ∧ (let c := SetScreen (PTerm some_other_filter) false in
     let e := ValueError [PStr Pipeline.set_screen_message] in
     exec c p_with_screen = (Raise e, (exec c p_with_screen).2)
     ∧ (e = TypeError "set_screen" "screen"
        ∨ (is_Some (_screen (self p_with_screen) ≫= id)
           ∧ e = ValueError [PStr Pipeline.set_screen_message]))).
Proof.
  split; [apply initialised_sample|].
  split; [|split]; intros c e; (split; [reflexivity|]).
  - apply (exceptions_raised c p_with_screen (exec c p_with_screen).2 e);
      [apply initialised_sample | reflexivity].
  - apply (exceptions_raised c p_with_screen (exec c p_with_screen).2 e);
      [apply initialised_sample | reflexivity].
  - apply (exceptions_raised c p_with_screen (exec c p_with_screen).2 e);
      [apply initialised_sample | reflexivity].
Defined.

(** X19: with [overwrite=True] the last [add] under a name wins: adding
    [t1] and then [t2] under the same name is the same as adding [t2] at
    once, whether or not the name was a column before. *)
Theorem add_overwrite_last_wins
    (σ : state) (t1 t2 : term) (name : string) :
  initialised σ →
  (Pipeline.add (PTerm t1) (PStr name) true;;
   Pipeline.add (PTerm t2) (PStr name) true) σ
  = Pipeline.add (PTerm t2) (PStr name) true σ
  ∧ ∃ σ' : state,
      Pipeline.add (PTerm t2) (PStr name) true σ = (Return (), σ')
      ∧ column σ' name = Some (PTerm t2).
Proof.
  intros (n & l & cols & scr & Hn & Hc & Hl & Hs)%initialised_inv.
  rewrite bind_run, !(add_run σ l cols) by done.
  rewrite !andb_false_r.
  rewrite (add_run _ l (<[name := PTerm t1]> cols));
    [|done|simpl; apply lookup_insert_eq].
  rewrite andb_false_r, with_dict_twice, insert_insert_eq.
  split; [done|]. eexists. split; [done|].
  rewrite (column_eq _ l (<[name := PTerm t2]> cols));
    [|done|simpl; apply lookup_insert_eq].
  apply lookup_insert_eq.
Qed.

Lemma add_overwrite_last_wins_witness :
  initialised p_with_screen
  ∧ (Pipeline.add (PTerm some_other_factor) (PStr "f") true;;
     Pipeline.add (PTerm factor_gt_5) (PStr "f") true) p_with_screen
    = Pipeline.add (PTerm factor_gt_5) (PStr "f") true p_with_screen
  ∧ ∃ σ' : state,
      Pipeline.add (PTerm factor_gt_5) (PStr "f") true p_with_screen
      = (Return (), σ')
      ∧ column σ' "f" = Some (PTerm factor_gt_5).
Proof.
  split; [apply initialised_sample|].
  apply (add_overwrite_last_wins p_with_screen some_other_factor factor_gt_5 "f").
  apply initialised_sample.
Defined.
